(** * AutoBI front end: result view, summary statistics, export, history

    A shallow embedding of the client-side result processing of the AutoBI
    front end (DataTable.tsx, SummaryStats.tsx, ExportButton.tsx and
    QueryHistory.tsx) together with the properties its specification states.

    JavaScript numbers are IEEE 754 binary64 values and are modelled by Rocq's
    primitive floats.  JavaScript strings are modelled by [string]; a character
    stands for one code unit below 256.  What the host environment decides
    (locale-dependent formatting and collation, the shortest decimal form of a
    number, the JSON parser) is collected in the class [Host]. *)

From Stdlib Require Import List String Ascii ZArith QArith Qround Lia Bool.
From Stdlib Require Import Permutation Sorted Floats DecimalString.
Import ListNotations.

Set Warnings "-register-all".

Close Scope Q_scope.
Open Scope list_scope.
Open Scope string_scope.

(* ================================================================== *)
(** * JavaScript values and built-ins *)
(* ================================================================== *)

Module JS.

(** ** Characters and strings *)

Definition dquote : ascii := "034"%char.
Definition newline : ascii := "010"%char.
Definition comma : ascii := ","%char.
Definition backslash : ascii := "092"%char.

Definition str1 (c : ascii) : string := String c EmptyString.

Definition code (c : ascii) : N := N_of_ascii c.

(** WhiteSpace and LineTerminator code units below 256, the ones
    [String.prototype.trim] removes: TAB, LF, VT, FF, CR, SP, NBSP. *)
Definition isWhiteSpace (c : ascii) : bool :=
  let n := code c in
  ((9 <=? n) && (n <=? 13) || (n =? 32) || (n =? 160))%N.

Fixpoint trimStart (s : string) : string :=
  match s with
  | EmptyString => EmptyString
  | String c s' => if isWhiteSpace c then trimStart s' else s
  end.

Fixpoint trimEnd (s : string) : string :=
  match s with
  | EmptyString => EmptyString
  | String c s' =>
      match trimEnd s' with
      | EmptyString => if isWhiteSpace c then EmptyString else str1 c
      | t => String c t
      end
  end.

Definition trim (s : string) : string := trimEnd (trimStart s).

(** Lower case of one code unit below 256: A-Z and the Latin-1 capitals
    U+00C0..U+00DE (the multiplication sign U+00D7 apart) move up by 32. *)
Definition lowerChar (c : ascii) : ascii :=
  let n := code c in
  if ((65 <=? n) && (n <=? 90)
      || (192 <=? n) && (n <=? 222) && negb (n =? 215))%N
  then ascii_of_N (n + 32) else c.

Fixpoint toLowerCase (s : string) : string :=
  match s with
  | EmptyString => EmptyString
  | String c s' => String (lowerChar c) (toLowerCase s')
  end.

(** Upper case of an ASCII word character, as used by [formatLabel]. *)
Definition upperChar (c : ascii) : ascii :=
  let n := code c in
  if ((97 <=? n) && (n <=? 122))%N then ascii_of_N (n - 32) else c.

(** The class [\w] of regular expressions: letters, digits and underscore. *)
Definition isWordChar (c : ascii) : bool :=
  let n := code c in
  ((48 <=? n) && (n <=? 57) || (65 <=? n) && (n <=? 90)
   || (97 <=? n) && (n <=? 122) || (n =? 95))%N.

(** [s.startsWith(t)] *)
Fixpoint startsWith (s t : string) {struct t} : bool :=
  match t with
  | EmptyString => true
  | String c t' =>
      match s with
      | EmptyString => false
      | String d s' => Ascii.eqb d c && startsWith s' t'
      end
  end.

(** [s.includes(t)]: [t] occurs in [s] as a substring. *)
Fixpoint includes (s t : string) : bool :=
  startsWith s t ||
  match s with
  | EmptyString => false
  | String _ s' => includes s' t
  end.

Fixpoint includesChar (s : string) (c : ascii) : bool :=
  match s with
  | EmptyString => false
  | String d s' => Ascii.eqb d c || includesChar s' c
  end.

(** [l.join(sep)] on an array of strings. *)
Definition join (sep : string) (l : list string) : string :=
  String.concat sep l.

(** [s.slice(k)] for a non-negative [k]. *)
Fixpoint sliceFrom (k : nat) (s : string) : string :=
  match k, s with
  | O, _ => s
  | S _, EmptyString => EmptyString
  | S k', String _ s' => sliceFrom k' s'
  end.

(** ** Arrays *)

(** The relative index of [Array.prototype.slice]: a negative index counts
    from the end, and the result is clamped to [[0, len]]. *)
Definition relIndex (len k : Z) : Z :=
  if (k <? 0)%Z then Z.max (len + k) 0 else Z.min k len.

(** [l.slice(start, end)]. *)
Definition slice {A : Type} (l : list A) (start end_ : Z) : list A :=
  let len := Z.of_nat (List.length l) in
  let k := relIndex len start in
  let final := relIndex len end_ in
  firstn (Z.to_nat (final - k)) (skipn (Z.to_nat k) l).

(** ** Numbers *)

Definition number : Type := float.

(** The length of an array as a number (exact below 2^53). *)
Definition numOfNat (n : nat) : number :=
  PrimFloat.of_uint63 (Uint63.of_Z (Z.of_nat n)).

(** [a !== b] on numbers. *)
Definition strictNe (a b : number) : bool := negb (PrimFloat.eqb a b).
Arguments strictNe (a b)%_float.

Definition Math_abs (x : number) : number := PrimFloat.abs x.

(** One step of [Math.min]: NaN is contagious and -0 is below +0. *)
Definition min2 (a b : number) : number :=
  if PrimFloat.is_nan a || PrimFloat.is_nan b then PrimFloat.nan
  else if PrimFloat.ltb a b then a
  else if PrimFloat.ltb b a then b
  else if PrimFloat.get_sign a then a else b.

Definition max2 (a b : number) : number :=
  if PrimFloat.is_nan a || PrimFloat.is_nan b then PrimFloat.nan
  else if PrimFloat.ltb a b then b
  else if PrimFloat.ltb b a then a
  else if PrimFloat.get_sign a then b else a.

(** [Math.min(...l)] and [Math.max(...l)]. *)
Definition Math_min (l : list number) : number :=
  fold_left min2 l PrimFloat.infinity.
Definition Math_max (l : list number) : number :=
  fold_left max2 l PrimFloat.neg_infinity.

(** Decimal digits of a non-negative integer. *)
Definition digits (n : Z) : string :=
  NilZero.string_of_uint (N.to_uint (Z.to_N n)).

Fixpoint zeros (k : nat) : string :=
  match k with
  | O => EmptyString
  | S k' => String "0"%char (zeros k')
  end.

Fixpoint takeStr (k : nat) (s : string) : string :=
  match k, s with
  | S k', String c s' => String c (takeStr k' s')
  | _, _ => EmptyString
  end.

(** The integer [n] nearest to [m * 2^e * 10^f], the larger one on a tie. *)
Definition nearestScaled (m e : Z) (f : nat) : Z :=
  let p := (10 ^ Z.of_nat f)%Z in
  if (0 <=? e)%Z then (m * 2 ^ e * p)%Z
  else let den := (2 ^ (- e))%Z in ((2 * m * p + den) / (2 * den))%Z.

(** [m] as a decimal numeral with [f] digits after the point. *)
Definition placePoint (m : string) (f : nat) : string :=
  match f with
  | O => m
  | _ =>
      let k := String.length m in
      let m' := if Nat.leb k f then zeros (f + 1 - k) ++ m else m in
      let k' := String.length m' in
      takeStr (k' - f) m' ++ "." ++ sliceFrom (k' - f) m'
  end.

(** ** JSON documents *)

Inductive json : Type :=
  | JNull
  | JBool (b : bool)
  | JNum (n : number)
  | JStr (s : string)
  | JArr (items : list json)
  | JObj (members : list (string * json)).

Definition hexDigit (n : N) : ascii :=
  if (n <? 10)%N then ascii_of_N (48 + n) else ascii_of_N (87 + n).

(** One code unit inside a JSON string literal (QuoteJSONString). *)
Definition quoteChar (c : ascii) : string :=
  let n := code c in
  if (n =? 8)%N then str1 backslash ++ "b"
  else if (n =? 9)%N then str1 backslash ++ "t"
  else if (n =? 10)%N then str1 backslash ++ "n"
  else if (n =? 12)%N then str1 backslash ++ "f"
  else if (n =? 13)%N then str1 backslash ++ "r"
  else if (n =? 34)%N then str1 backslash ++ str1 dquote
  else if (n =? 92)%N then str1 backslash ++ str1 backslash
  else if (n <? 32)%N then
    str1 backslash ++ "u00" ++ str1 (hexDigit (n / 16))
    ++ str1 (hexDigit (n mod 16))
  else str1 c.

Fixpoint quoteBody (s : string) : string :=
  match s with
  | EmptyString => EmptyString
  | String c s' => quoteChar c ++ quoteBody s'
  end.

Definition quoteJSONString (s : string) : string :=
  str1 dquote ++ quoteBody s ++ str1 dquote.

(** The keys of every object of a document, outermost first. *)
Fixpoint jsonKeys (v : json) : list string :=
  match v with
  | JArr items => flat_map jsonKeys items
  | JObj members =>
      flat_map (fun kv => fst kv :: jsonKeys (snd kv)) members
  | _ => []
  end.

(** ** The host environment *)

(** What the engine and the locale decide.  [JSON_parse] returns [None] where
    [JSON.parse] throws a SyntaxError. *)
Class Host : Type := {
  (** [String(n)], [n.toString()] *)
  numToString : number -> string;
  (** [n.toLocaleString()] *)
  toLocaleString : number -> string;
  (** [n.toLocaleString(undefined, { maximumFractionDigits: 2 })] *)
  toLocaleString2 : number -> string;
  (** [a.localeCompare(b)] *)
  localeCompare : string -> string -> number;
  (** [JSON.parse(s)] *)
  JSON_parse : string -> option json
}.

Section WithHost.
Context {host : Host}.

Definition isFinite (x : number) : bool :=
  match PrimFloat.classify x with
  | NaN | PInf | NInf => false
  | _ => true
  end.

(** [x.toFixed(f)] (Number.prototype.toFixed): the sign is split off, the
    magnitude is rounded to the nearest multiple of [10^-f], the larger one on
    a tie; magnitudes from [1e21] on and non-finite numbers print as
    [String(x)]. *)
Definition toFixed (x : number) (f : nat) : string :=
  match Prim2SF x with
  | S754_zero _ => placePoint (digits 0) f
  | S754_finite s m e =>
      if PrimFloat.leb 1e21%float (PrimFloat.abs x) then numToString x
      else (if s then "-" else EmptyString)
           ++ placePoint (digits (nearestScaled (Zpos m) e f)) f
  | _ => numToString x
  end.

(** [JSON.stringify(v, null, gap)] for a document [v] (SerializeJSONProperty,
    SerializeJSONArray and SerializeJSONObject); [indent] is the current
    indentation. *)
Fixpoint serialize (gap indent : string) (v : json) : string :=
  let inner := indent ++ gap in
  let wrap (opening closing : string) (parts : list string) : string :=
    match parts with
    | [] => opening ++ closing
    | _ =>
        if String.eqb gap EmptyString then opening ++ join "," parts ++ closing
        else opening ++ str1 newline ++ inner
             ++ join ("," ++ str1 newline ++ inner) parts
             ++ str1 newline ++ indent ++ closing
    end in
  match v with
  | JNull => "null"
  | JBool b => if b then "true" else "false"
  | JNum n => if isFinite n then numToString n else "null"
  | JStr s => quoteJSONString s
  | JArr items => wrap "[" "]" (map (serialize gap inner) items)
  | JObj members =>
      wrap "{" "}"
        (map (fun kv : string * json =>
                quoteJSONString (fst kv) ++ ":"
                ++ (if String.eqb gap EmptyString then EmptyString else " ")
                ++ serialize gap inner (snd kv))
             members)
  end.

Definition JSON_stringify (v : json) (space : nat) : string :=
  serialize (takeStr space "          ") EmptyString v.

End WithHost.

(** ** Sorting *)

Section Sort.
Context {A : Type} (comparefn : A -> A -> number).

(** [x] goes in front of the first element that does not compare below it;
    a NaN result counts as zero. *)
Fixpoint insert (x : A) (sorted : list A) : list A :=
  match sorted with
  | [] => [x]
  | e :: rest =>
      if PrimFloat.ltb (comparefn e x) 0%float then e :: insert x rest
      else x :: sorted
  end.

(** [l.sort(comparefn)], as a stable insertion sort.  ECMAScript fixes the
    result for a consistent comparator, where every stable sort agrees with
    this one, and leaves the order to the engine otherwise. *)
Fixpoint Array_sort (l : list A) : list A :=
  match l with
  | [] => []
  | x :: rest => insert x (Array_sort rest)
  end.

End Sort.

End JS.

Import JS.

(* ================================================================== *)
(** * Rows and columns *)
(* ================================================================== *)

(** A cell of a result row as the back end delivers it. *)
Inductive value : Type :=
  | VNull
  | VNum (n : number)
  | VStr (s : string).

Arguments VNum n%_float.

(** A row object [Record<string, any>]: its properties in enumeration
    order. *)
Definition Row : Type := list (string * value).

(** [row[key]]; [None] is [undefined]. *)
Fixpoint get (row : Row) (key : string) : option value :=
  match row with
  | [] => None
  | (k, v) :: rest => if String.eqb k key then Some v else get rest key
  end.

(** [interface Column { name: string; type: string }] *)
Record Column : Type := mkColumn { name : string; type : string }.

(** [val === null || val === undefined], also [val == null]. *)
Definition isNullish (val : option value) : bool :=
  match val with
  | None | Some VNull => true
  | _ => false
  end.

(** [String(val)] *)
Definition String_ {host : Host} (val : option value) : string :=
  match val with
  | None => "undefined"
  | Some VNull => "null"
  | Some (VNum n) => numToString n
  | Some (VStr s) => s
  end.

Definition jsonOfValue (v : value) : json :=
  match v with
  | VNull => JNull
  | VNum n => JNum n
  | VStr s => JStr s
  end.

Definition jsonOfRow (row : Row) : json :=
  JObj (map (fun kv => (fst kv, jsonOfValue (snd kv))) row).

(* ================================================================== *)
(** * DataTable.tsx *)
(* ================================================================== *)

Module DataTable.
Section WithHost.
Context {host : Host}.

(** [type SortDirection = 'asc' | 'desc' | null]; [null] is [None]. *)
Inductive Direction : Type := asc | desc.

Definition pageSize : Z := 25.

(** [filteredData] *)
Definition filteredData (data : list Row) (columns : list Column)
    (searchTerm : string) : list Row :=
  if String.eqb (trim searchTerm) EmptyString then data
  else
    let term := toLowerCase searchTerm in
    filter (fun row =>
              existsb (fun col =>
                         let val := get row (name col) in
                         negb (isNullish val)
                         && includes (toLowerCase (String_ val)) term)
                      columns)
           data.

(** The comparator handed to [sort]. *)
Definition compareRows (sortColumn : string) (sortDirection : Direction)
    (a b : Row) : number :=
  let aVal := get a sortColumn in
  let bVal := get b sortColumn in
  if isNullish aVal then 1%float
  else if isNullish bVal then (-1)%float
  else
    match aVal, bVal with
    | Some (VNum x), Some (VNum y) =>
        match sortDirection with
        | asc => PrimFloat.sub x y
        | desc => PrimFloat.sub y x
        end
    | _, _ =>
        let aStr := String_ aVal in
        let bStr := String_ bVal in
        match sortDirection with
        | asc => localeCompare aStr bStr
        | desc => localeCompare bStr aStr
        end
    end.

(** [sortedData]; an empty column name is falsy like [null]. *)
Definition sortedData (filtered : list Row) (sortColumn : option string)
    (sortDirection : option Direction) : list Row :=
  match sortColumn, sortDirection with
  | Some c, Some d =>
      if String.eqb c EmptyString then filtered
      else Array_sort (compareRows c d) filtered
  | _, _ => filtered
  end.

(** [paginatedData] *)
Definition paginatedData (sorted : list Row) (page : Z) : list Row :=
  let start := (page * pageSize)%Z in
  slice sorted start (start + pageSize)%Z.

(** [Math.ceil(filteredData.length / pageSize)].  The quotient is taken in
    the rationals: for an array length the binary64 quotient lies strictly
    between the same two integers, or is the same integer. *)
Definition totalPages (filtered : list Row) : Z :=
  Qceiling (inject_Z (Z.of_nat (List.length filtered)) / inject_Z pageSize)%Q.

(** [handleSort], on the pair (sortColumn, sortDirection). *)
Definition handleSort (st : option string * option Direction)
    (colName : string) : option string * option Direction :=
  let (sortColumn, sortDirection) := st in
  if match sortColumn with Some c => String.eqb c colName | None => false end
  then
    match sortDirection with
    | Some asc => (sortColumn, Some desc)
    | Some desc => (None, None)
    | None => st
    end
  else (Some colName, Some asc).

End WithHost.
End DataTable.

(* ================================================================== *)
(** * SummaryStats.tsx *)
(* ================================================================== *)

Module SummaryStats.

Inductive Trend : Type := up | down | neutral.

(** The icon components of the cards. *)
Inductive Icon : Type := Hash | Activity | Target | TrendingUp | TrendingDown.

(** [interface StatCard] *)
Record StatCard : Type := mkStatCard {
  label : string;
  value : string;
  subValue : option string;
  icon : Icon;
  trend : option Trend;
  color : string
}.

(** [name.replace(/_/g, ' ')] *)
Fixpoint underscoresToSpaces (s : string) : string :=
  match s with
  | EmptyString => EmptyString
  | String c s' =>
      String (if Ascii.eqb c "_"%char then " "%char else c)
             (underscoresToSpaces s')
  end.

(** [s.replace(/\b\w/g, c => c.toUpperCase())]; [afterWord] tells whether the
    code unit before the current one is a word character. *)
Fixpoint capitalizeWords (afterWord : bool) (s : string) : string :=
  match s with
  | EmptyString => EmptyString
  | String c s' =>
      String (if isWordChar c && negb afterWord then upperChar c else c)
             (capitalizeWords (isWordChar c) s')
  end.

(** [columns.filter(c => c.type === 'measure')] *)
Definition measureColumns (columns : list Column) : list Column :=
  filter (fun c => String.eqb (type c) "measure") columns.

(** [formatLabel] *)
Definition formatLabel (name : string) : string :=
  capitalizeWords false (underscoresToSpaces name).

(** The separator between the two ends of the change, as the source file
    holds it: the three characters U+00E2, U+2020 and U+2019 (an arrow
    U+2192 whose UTF-8 bytes were once read as Windows-1252).  Two of them
    lie beyond the code units a character of this model holds, so the three
    are written as the eight bytes of their UTF-8 form. *)
Definition arrow : string :=
  String "195"%char (String "162"%char
    (String "226"%char (String "128"%char (String "160"%char
      (String "226"%char (String "128"%char (String "153"%char
        EmptyString))))))).

Section WithHost.
Context {host : Host}.

(** [formatNumber] *)
Definition formatNumber (v : number) : string :=
  if PrimFloat.leb 1000000%float (Math_abs v) then
    toFixed (PrimFloat.div v 1000000%float) 1 ++ "M"
  else if PrimFloat.leb 1000%float (Math_abs v) then
    toFixed (PrimFloat.div v 1000%float) 1 ++ "K"
  else if PrimFloat.ltb (Math_abs v) 1%float && strictNe v 0%float then
    toFixed v 3
  else toLocaleString2 v.

(** [data.map(r => r[col.name]).filter(v => typeof v === 'number')] *)
Definition numbersOf (data : list Row) (col : Column) : list number :=
  flat_map (fun r => match get r (name col) with
                     | Some (VNum n) => [n]
                     | _ => []
                     end) data.

(** [values.reduce((a, b) => a + b, 0)] *)
Definition sum (values : list number) : number :=
  fold_left PrimFloat.add values 0%float.

Definition rowCountCard (data : list Row) : StatCard :=
  {| label := "Total Rows";
     value := toLocaleString (numOfNat (List.length data));
     subValue := None; icon := Hash; trend := None; color := "blue" |}.

Definition totalCard (col : Column) (values : list number) : StatCard :=
  let s := sum values in
  let avg := PrimFloat.div s (numOfNat (List.length values)) in
  {| label := "Total " ++ formatLabel (name col);
     value := formatNumber s;
     subValue := Some ("Avg: " ++ formatNumber avg);
     icon := Activity; trend := None; color := "green" |}.

Definition averageCard (col : Column) (values : list number) : StatCard :=
  let avg := PrimFloat.div (sum values) (numOfNat (List.length values)) in
  let min := Math_min values in
  let max := Math_max values in
  {| label := "Avg " ++ formatLabel (name col);
     value := formatNumber avg;
     subValue := Some (formatNumber min ++ " - " ++ formatNumber max);
     icon := Target; trend := None; color := "purple" |}.

(** [((last - first) / Math.abs(first)) * 100] *)
Definition change (first last : number) : number :=
  PrimFloat.mul
    (PrimFloat.div (PrimFloat.sub last first) (Math_abs first)) 100%float.

Definition changeCard (first last : number) : StatCard :=
  let c := change first last in
  let rising := PrimFloat.leb 0%float c in
  {| label := "Change";
     value := (if rising then "+" else EmptyString) ++ toFixed c 1 ++ "%";
     subValue := Some (formatNumber first ++ " " ++ arrow ++ " "
                       ++ formatNumber last);
     icon := if rising then TrendingUp else TrendingDown;
     trend := Some (if rising then up else down);
     color := if rising then "green" else "red" |}.

(** The cards pushed for the first measure column. *)
Definition totalCards (data : list Row) (measureCols : list Column)
    : list StatCard :=
  match nth_error measureCols 0 with
  | Some col =>
      let values := numbersOf data col in
      if Nat.ltb 0 (List.length values) then [totalCard col values] else []
  | None => []
  end.

(** The cards pushed for the second measure column. *)
Definition averageCards (data : list Row) (measureCols : list Column)
    : list StatCard :=
  match nth_error measureCols 1 with
  | Some col =>
      let values := numbersOf data col in
      if Nat.ltb 0 (List.length values) then [averageCard col values] else []
  | None => []
  end.

(** The cards pushed for the growth from the first to the last row. *)
Definition changeCards (data : list Row) (measureCols : list Column)
    : list StatCard :=
  match nth_error measureCols 0 with
  | Some col =>
      if Nat.leb 2 (List.length data) then
        match data, get (last data []) (name col) with
        | row0 :: _, Some (VNum lastV) =>
            match get row0 (name col) with
            | Some (VNum firstV) =>
                if strictNe firstV 0%float then [changeCard firstV lastV]
                else []
            | _ => []
            end
        | _, _ => []
        end
      else []
  | None => []
  end.

(** The [stats] memo of the component. *)
Definition stats (data : list Row) (columns : list Column) : list StatCard :=
  if Nat.eqb (List.length data) 0 || Nat.eqb (List.length columns) 0 then []
  else
    let measureCols := measureColumns columns in
    let cards :=
      ([rowCountCard data] ++ totalCards data measureCols
       ++ averageCards data measureCols
       ++ changeCards data measureCols)%list in
    slice cards 0 4.

End WithHost.
End SummaryStats.

(* ================================================================== *)
(** * ExportButton.tsx *)
(* ================================================================== *)

Module ExportButton.

(** What [downloadFile(content, filename, type)] hands to the browser. *)
Record Download : Type := mkDownload {
  content : string;
  filename : string;
  mimeType : string
}.

(** [val.replace] on the pattern of one double quote, global: each double
    quote becomes two. *)
Fixpoint doubleQuotes (s : string) : string :=
  match s with
  | EmptyString => EmptyString
  | String c s' =>
      if Ascii.eqb c dquote then String dquote (String dquote (doubleQuotes s'))
      else String c (doubleQuotes s')
  end.

(** [val] includes a comma, a double quote or a line feed. *)
Definition needsQuoting (s : string) : bool :=
  includesChar s comma || includesChar s dquote || includesChar s newline.

Section WithHost.
Context {host : Host}.

(** One cell of a CSV line, the body of [headers.map(h => ...)]. *)
Definition csvCell (val : option value) : string :=
  match val with
  | None | Some VNull => EmptyString
  | Some (VStr s) =>
      if needsQuoting s then str1 dquote ++ doubleQuotes s ++ str1 dquote
      else String_ val
  | _ => String_ val
  end.

Definition csvContent (data : list Row) (columns : list Column) : string :=
  let headers := map name columns in
  join (str1 newline)
       (join "," headers
        :: map (fun row =>
                  join "," (map (fun h => csvCell (get row h)) headers))
               data).

(** [exportCSV] *)
Definition exportCSV (data : list Row) (columns : list Column)
    (file : string) : Download :=
  mkDownload (csvContent data columns) (file ++ ".csv") "text/csv".

Definition jsonContent (data : list Row) : string :=
  JSON_stringify (JArr (map jsonOfRow data)) 2.

(** [exportJSON]; the column list takes no part. *)
Definition exportJSON (data : list Row) (columns : list Column)
    (file : string) : Download :=
  mkDownload (jsonContent data) (file ++ ".json") "application/json".

(** [row[h] ?? ''] followed by the string conversion of [join]. *)
Definition tsvCell (val : option value) : string :=
  if isNullish val then EmptyString else String_ val.

(** The text [copyToClipboard] writes. *)
Definition tsvContent (data : list Row) (columns : list Column) : string :=
  let headers := map name columns in
  let tab := str1 "009"%char in
  join (str1 newline)
       (join tab headers
        :: map (fun row =>
                  join tab (map (fun h => tsvCell (get row h)) headers))
               data).

End WithHost.

End ExportButton.

(* ================================================================== *)
(** * A CSV reader *)
(* ================================================================== *)

(** The front end writes CSV and never reads it; the specification reads the
    export back.  This is the reader it is read back with, after RFC 4180:
    fields between commas, records between line feeds, double quotes around
    a field that holds one of them, a doubled double quote for one. *)
Module CsvReader.

(** One field: a field that opens with a double quote runs to its closing
    quote, a doubled quote inside standing for one quote; any other field is
    taken as it is.  [None] where a quoted field is not closed or text
    follows the closing quote. *)
Fixpoint readQuoted (s : string) : option string :=
  match s with
  | EmptyString => None
  | String c s' =>
      if Ascii.eqb c dquote then
        match s' with
        | EmptyString => Some EmptyString
        | String d s'' =>
            if Ascii.eqb d dquote then
              option_map (String dquote) (readQuoted s'')
            else None
        end
      else option_map (String c) (readQuoted s')
  end.

Definition parseField (s : string) : option string :=
  match s with
  | String c s' => if Ascii.eqb c dquote then readQuoted s' else Some s
  | EmptyString => Some s
  end.

(** The pieces of [s] between the separators [sep] that stand outside double
    quotes; [inQuotes] tells whether the text so far has opened a quote. *)
Fixpoint splitOutside (sep : ascii) (inQuotes : bool) (s : string)
    : list string :=
  match s with
  | EmptyString => [EmptyString]
  | String c s' =>
      if Ascii.eqb c sep && negb inQuotes then
        EmptyString :: splitOutside sep false s'
      else
        let inQuotes' := if Ascii.eqb c dquote then negb inQuotes
                         else inQuotes in
        match splitOutside sep inQuotes' s' with
        | piece :: pieces => String c piece :: pieces
        | [] => [str1 c]
        end
  end.

Fixpoint allSome {A : Type} (l : list (option A)) : option (list A) :=
  match l with
  | [] => Some []
  | Some x :: rest => option_map (cons x) (allSome rest)
  | None :: _ => None
  end.

(** A reader of a whole CSV text: records end at line feeds outside
    quotes, fields at commas outside quotes. *)
Definition parseCSV (text : string) : option (list (list string)) :=
  allSome
    (map (fun record =>
            allSome (map parseField (splitOutside comma false record)))
         (splitOutside newline false text)).

End CsvReader.

(* ================================================================== *)
(** * QueryHistory.tsx *)
(* ================================================================== *)

Module QueryHistory.

(** [interface QueryHistoryItem] *)
Record QueryHistoryItem : Type := mkItem {
  id : string;
  question : string;
  timestamp : number;
  rowCount : number;
  executionTime : number;
  confidence : number
}.

(** [Omit<QueryHistoryItem, 'id' | 'timestamp'>], the argument of
    [addToHistory]. *)
Module Input.
Record t : Type := mk {
  question : string;
  rowCount : number;
  executionTime : number;
  confidence : number
}.
Arguments mk question (rowCount executionTime confidence)%_float.
End Input.

Definition STORAGE_KEY : string := "autobi_query_history".
Definition MAX_HISTORY : Z := 50.

(** The hook's state and the item of [localStorage] under [STORAGE_KEY]. *)
Record State : Type := mkState {
  history : list QueryHistoryItem;
  storage : option string
}.

(** What the clock and the random generator return during one call of
    [addToHistory]: the two readings of [Date.now()] and
    [Math.random().toString(36)]. *)
Record Env : Type := mkEnv {
  idNow : number;
  random36 : string;
  stampNow : number
}.

Arguments mkEnv (idNow random36 stampNow)%_float.
Arguments mkItem id question
  (timestamp rowCount executionTime confidence)%_float.

(** [h.question.toLowerCase() !== item.question.toLowerCase()] *)
Definition differs (q : string) (h : QueryHistoryItem) : bool :=
  negb (String.eqb (toLowerCase (question h)) (toLowerCase q)).

Section WithHost.
Context {host : Host}.

(** An item as a JSON object, its properties in the order of the spread
    [{...item, id, timestamp}]. *)
Definition jsonOfItem (h : QueryHistoryItem) : json :=
  JObj [("question", JStr (question h));
        ("rowCount", JNum (rowCount h));
        ("executionTime", JNum (executionTime h));
        ("confidence", JNum (confidence h));
        ("id", JStr (id h));
        ("timestamp", JNum (timestamp h))].

Definition persist (l : list QueryHistoryItem) : string :=
  JSON_stringify (JArr (map jsonOfItem l)) 0.

Definition newItem (env : Env) (item : Input.t) : QueryHistoryItem :=
  {| id := numToString (idNow env) ++ "-" ++ sliceFrom 2 (random36 env);
     question := Input.question item;
     timestamp := stampNow env;
     rowCount := Input.rowCount item;
     executionTime := Input.executionTime item;
     confidence := Input.confidence item |}.

(** [addToHistory] *)
Definition addToHistory (env : Env) (item : Input.t) (st : State) : State :=
  let filtered := filter (differs (Input.question item)) (history st) in
  let updated := slice (newItem env item :: filtered) 0 MAX_HISTORY in
  {| history := updated; storage := Some (persist updated) |}.

(** [removeFromHistory] *)
Definition removeFromHistory (i : string) (st : State) : State :=
  let updated := filter (fun h => negb (String.eqb (id h) i)) (history st) in
  {| history := updated; storage := Some (persist updated) |}.

(** [clearHistory] *)
Definition clearHistory (st : State) : State :=
  {| history := []; storage := None |}.

(** The mount effect: the value the [history] state holds once the effect
    has run on the stored item ([None]: no item under the key).  The state
    starts as the empty array; a stored string that parses is taken as it
    comes, whatever its shape. *)
Definition hydrate (stored : option string) : json :=
  match stored with
  | None => JArr []
  | Some s =>
      if String.eqb s EmptyString then JArr []
      else
        match JSON_parse s with
        | Some v => v
        | None => JArr []
        end
  end.

End WithHost.
End QueryHistory.

(* ================================================================== *)
(** * A host to run the definitions on *)
(* ================================================================== *)

(** A host in the manner of the [en-US] locale, used to evaluate the
    components on concrete inputs.  Numbers print in plain decimal notation
    with all their digits, which is what an engine prints for integers below
    [1e21] and for fractions with a short binary expansion such as [0.5] or
    [2.25]; strings compare by code units; the parser knows [null] and
    arrays of string literals without escapes. *)
Module TestHost.

Fixpoint stripZeros (s : string) : string :=
  match s with
  | EmptyString => EmptyString
  | String c s' =>
      match stripZeros s' with
      | EmptyString =>
          if Ascii.eqb c "0"%char || Ascii.eqb c "."%char then EmptyString
          else str1 c
      | t => String c t
      end
  end.

(** Commas between groups of three digits. *)
Fixpoint group (s : string) : string :=
  match s with
  | EmptyString => EmptyString
  | String c s' =>
      let k := String.length s' in
      String c (if Nat.eqb (k mod 3) 0 && Nat.ltb 0 k then "," ++ group s'
                else group s')
  end.

Definition signed (s : bool) (body : string) : string :=
  if s then "-" ++ body else body.

Definition special (x : number) : string :=
  match PrimFloat.classify x with
  | PInf => "Infinity"
  | NInf => "-Infinity"
  | _ => "NaN"
  end.

(** The exact decimal expansion of a finite number. *)
Definition numToString (x : number) : string :=
  match Prim2SF x with
  | S754_zero _ => "0"
  | S754_finite s m e =>
      if (0 <=? e)%Z then signed s (digits (Zpos m * 2 ^ e))
      else
        let k := Z.to_nat (- e) in
        let n := (Zpos m * 5 ^ (- e))%Z in
        let whole := digits (n / 10 ^ (- e)) in
        let frac := digits (n mod 10 ^ (- e)) in
        let fracDigits := stripZeros (zeros (k - String.length frac) ++ frac) in
        signed s (if String.eqb fracDigits EmptyString then whole
                  else whole ++ "." ++ fracDigits)
  | _ => special x
  end.

(** Grouped digits, rounded to [f] fraction digits, zeros at the end
    dropped. *)
Definition localized (f : nat) (x : number) : string :=
  match Prim2SF x with
  | S754_zero s => signed s "0"
  | S754_finite s m e =>
      let n := nearestScaled (Zpos m) e f in
      let whole := (n / 10 ^ Z.of_nat f)%Z in
      let frac := (n mod 10 ^ Z.of_nat f)%Z in
      let fracDigits :=
        stripZeros (sliceFrom 1 (placePoint (digits frac) f)) in
      signed s (group (digits whole)
                ++ (if Nat.eqb f 0 then EmptyString else fracDigits))
  | _ => special x
  end.

Fixpoint compareUnits (a b : string) : number :=
  match a, b with
  | EmptyString, EmptyString => 0%float
  | EmptyString, String _ _ => (-1)%float
  | String _ _, EmptyString => 1%float
  | String c a', String d b' =>
      if (code c <? code d)%N then (-1)%float
      else if (code d <? code c)%N then 1%float
      else compareUnits a' b'
  end.

(** String literals without escapes, separated by commas. *)
Fixpoint literal (s : string) : option (string * string) :=
  match s with
  | EmptyString => None
  | String c s' =>
      if Ascii.eqb c dquote then Some (EmptyString, s')
      else if Ascii.eqb c backslash || (code c <? 32)%N then None
      else
        match literal s' with
        | Some (body, rest) => Some (String c body, rest)
        | None => None
        end
  end.

Fixpoint elements (fuel : nat) (s : string) : option (list json) :=
  match fuel with
  | O => None
  | S fuel' =>
      match s with
      | String c s' =>
          if Ascii.eqb c dquote then
            match literal s' with
            | Some (body, String d rest) =>
                if Ascii.eqb d "]"%char then
                  match rest with
                  | EmptyString => Some [JStr body]
                  | _ => None
                  end
                else if Ascii.eqb d comma then
                  option_map (cons (JStr body)) (elements fuel' rest)
                else None
            | _ => None
            end
          else None
      | EmptyString => None
      end
  end.

Definition parse (s : string) : option json :=
  match s with
  | String c s' =>
      if Ascii.eqb c "["%char then
        if String.eqb s' "]" then Some (JArr [])
        else option_map JArr (elements (String.length s') s')
      else if String.eqb s "null" then Some JNull
      else None
  | EmptyString => None
  end.

#[export] Instance host : Host := {|
  JS.numToString := numToString;
  JS.toLocaleString := localized 3;
  JS.toLocaleString2 := localized 2;
  JS.localeCompare := compareUnits;
  JS.JSON_parse := parse
|}.

End TestHost.

(* ================================================================== *)
(** * Sample inputs *)
(* ================================================================== *)

Module Sample.

(** The keys 5, null, 3 under the column [v]. *)
Definition fiveNullThree : list Row :=
  [[("v", VNum 5)]; [("v", VNull)]; [("v", VNum 3)]].

(** The keys null, 5 under a column whose name is the empty string. *)
Definition namelessColumnRows : list Row :=
  [[(EmptyString, VNull)]; [(EmptyString, VNum 5)]].

Definition revenue : list Column := [mkColumn "revenue" "measure"].

(** The rows of the summary example of the specification. *)
Definition revenueRows : list Row :=
  [[("revenue", VNum 100)]; [("revenue", VNum 200)]; [("revenue", VNum 300)]].

(** A first row without a number under the measure. *)
Definition revenueUnknownFirst : list Row :=
  [[("revenue", VStr "n/a")]; [("revenue", VNum 200)]].

(** A first row with zero under the measure. *)
Definition revenueZeroFirst : list Row :=
  [[("revenue", VNum 0)]; [("revenue", VNum 200)]].

(** The value of the round-trip example: Acme, comma, space, and Inc. in
    double quotes. *)
Definition acme : string :=
  "Acme, " ++ str1 dquote ++ "Inc." ++ str1 dquote.

Definition company : list Column :=
  [mkColumn "company" "dimension"; mkColumn "revenue" "measure"].

Definition companyRows : list Row :=
  [[("company", VStr acme); ("revenue", VNum 100); ("note", VStr "x")];
   [("company", VNull)]].

(** Two calls of [addToHistory] with one question in two spellings. *)
Definition showSales : QueryHistory.Input.t :=
  QueryHistory.Input.mk "Show sales" 10 120 0.5.
Definition showSalesAgain : QueryHistory.Input.t :=
  QueryHistory.Input.mk "SHOW SALES" 12 80 0.75.
Definition firstCall : QueryHistory.Env :=
  QueryHistory.mkEnv 1700000000000 "0.4fzyo82mvyr" 1700000000000.
Definition secondCall : QueryHistory.Env :=
  QueryHistory.mkEnv 1700000060000 "0.9x2c1kq7b3d" 1700000060001.

(** A stored array of one string, the letter a. *)
Definition storedArray : string :=
  "[" ++ str1 dquote ++ "a" ++ str1 dquote ++ "]".

End Sample.

(* ================================================================== *)
(** * Predicates of the statements *)
(* ================================================================== *)

(** No row with a key follows a row whose key under [c] is null or
    undefined. *)
Definition nullsLast (c : string) (l : list Row) : Prop :=
  forall i j a b,
    i < j -> nth_error l i = Some a -> nth_error l j = Some b ->
    isNullish (get a c) = true -> isNullish (get b c) = true.

(** Every code unit of [s] is white space. *)
Fixpoint allWhiteSpace (s : string) : bool :=
  match s with
  | EmptyString => true
  | String c s' => isWhiteSpace c && allWhiteSpace s'
  end.

(** The order a comparator puts two neighbours in: the first compares below
    the second, or the second does not compare below the first. *)
Definition inOrder {A : Type} (comparefn : A -> A -> number) (a b : A) : Prop :=
  PrimFloat.ltb (comparefn a b) 0%float = true
  \/ PrimFloat.ltb (comparefn b a) 0%float = false.

(** The reading of the filter in the specification: some declared column of
    the row holds a value, not null, whose lower-cased string form includes
    [term]. *)
Definition matchesTerm {host : Host} (term : string) (columns : list Column)
    (row : Row) : bool :=
  existsb (fun col =>
             match get row (name col) with
             | Some (VNum n) => includes (toLowerCase (numToString n)) term
             | Some (VStr s) => includes (toLowerCase s) term
             | Some VNull | None => false
             end) columns.

(** The questions of [h] and [q] are equal up to case. *)
Definition sameQuestion (q : string) (h : QueryHistory.QueryHistoryItem)
    : bool :=
  String.eqb (toLowerCase (QueryHistory.question h)) (toLowerCase q).

(** A run of calls of [addToHistory], each with what the clock and the
    random generator returned during it. *)
Definition addAll {host : Host}
    (calls : list (QueryHistory.Env * QueryHistory.Input.t))
    (st : QueryHistory.State) : QueryHistory.State :=
  fold_left (fun st call => QueryHistory.addToHistory (fst call) (snd call) st)
            calls st.

(** The reading of a CSV cell in the specification: nothing for null and
    undefined; otherwise the string form of the value, put in double quotes
    with each inner double quote doubled when it includes a comma, a double
    quote or a line feed. *)
Definition specCell {host : Host} (val : option value) : string :=
  if isNullish val then EmptyString
  else
    let s := String_ val in
    if ExportButton.needsQuoting s then
      str1 dquote ++ ExportButton.doubleQuotes s ++ str1 dquote
    else s.

(** The text a reader should find in a cell: the string form of the value,
    nothing for null and undefined. *)
Definition cellText {host : Host} (val : option value) : string :=
  if isNullish val then EmptyString else String_ val.

(** The numbers of the rows print without comma, double quote and line
    feed, as every number does in an engine. *)
Definition plainNumbers {host : Host} (data : list Row) : bool :=
  forallb (fun row : Row =>
             forallb (fun kv : string * value =>
                        match snd kv with
                        | VNum n =>
                            negb (ExportButton.needsQuoting (numToString n))
                        | _ => true
                        end) row) data.

(** The names of the columns hold no comma, double quote or line feed. *)
Definition plainNames (columns : list Column) : bool :=
  forallb (fun col => negb (ExportButton.needsQuoting (name col))) columns.

(** [p] holds no separator [sep] outside double quotes and closes every
    quote it opens; [inQuotes] as for [splitOutside]. *)
Fixpoint sealed (sep : ascii) (inQuotes : bool) (p : string) : bool :=
  match p with
  | EmptyString => negb inQuotes
  | String c p' =>
      if Ascii.eqb c dquote then sealed sep (negb inQuotes) p'
      else if Ascii.eqb c sep then inQuotes && sealed sep inQuotes p'
      else sealed sep inQuotes p'
  end.

(** The number of one cell, if it holds one, prints plainly. *)
Definition plainCell {host : Host} (val : option value) : Prop :=
  forall n,
    val = Some (VNum n) -> ExportButton.needsQuoting (numToString n) = false.

(** One line of the CSV export. *)
Definition csvLine {host : Host} (row : Row) (columns : list Column)
    : string :=
  join "," (map (fun h => ExportButton.csvCell (get row h)) (map name columns)).

(* ================================================================== *)
(** * DataTable.tsx: the pager buttons *)
(* ================================================================== *)

Module Pager.

(** The updater of the Previous button, [p => Math.max(0, p - 1)]. *)
Definition previousPage (page : Z) : Z := Z.max 0 (page - 1).

(** The updater of the Next button,
    [p => Math.min(totalPages - 1, p + 1)]. *)
Definition nextPage (total page : Z) : Z := Z.min (total - 1) (page + 1).

End Pager.

(* ================================================================== *)
(** * QueryHistory.tsx: the panel *)
(* ================================================================== *)

Module HistoryPanel.

(** [showAll ? history : history.slice(0, 5)] *)
Definition displayedHistory (showAll : bool)
    (history : list QueryHistory.QueryHistoryItem)
    : list QueryHistory.QueryHistoryItem :=
  if showAll then history else slice history 0 5.

(** [history.length > 5], the condition of the button that toggles
    [showAll]. *)
Definition offersShowAll (history : list QueryHistory.QueryHistoryItem)
    : bool :=
  Nat.ltb 5 (List.length history).

(** An integer as a number (exact below 2^53). *)
Definition numOfZ (z : Z) : number :=
  if (z <? 0)%Z then PrimFloat.opp (numOfNat (Z.to_nat (- z)))
  else numOfNat (Z.to_nat z).

(** [formatTime], on the clock reading [now] and the time stamp, both in
    whole milliseconds as [Date.now()] gives them; [Math.floor] of the
    quotients is the integer quotient. *)
Definition formatTime {host : Host} (now timestamp : Z) : string :=
  let diff := (now - timestamp)%Z in
  let mins := (diff / 60000)%Z in
  let hours := (diff / 3600000)%Z in
  let days := (diff / 86400000)%Z in
  if (mins <? 1)%Z then "Just now"
  else if (mins <? 60)%Z then numToString (numOfZ mins) ++ "m ago"
  else if (hours <? 24)%Z then numToString (numOfZ hours) ++ "h ago"
  else numToString (numOfZ days) ++ "d ago".

End HistoryPanel.

(* ================================================================== *)
(** * QueryInterface.tsx *)
(* ================================================================== *)

Module QueryInterface.

Definition EXAMPLE_QUERIES : list string :=
  ["Show total sales by category";
   "What is the trend over time?";
   "Top 10 customers by revenue";
   "Average order value by month";
   "Distribution of prices";
   "Compare regions by profit";
   "Show me the bottom 5 products";
   "Monthly growth rate"].

(** [SMART_SUGGESTIONS]; the pattern of an entry is its keyword, any case,
    then white space to the end of the input. *)
Definition SMART_SUGGESTIONS : list (string * list string) :=
  [("show", ["Show total"; "Show all"; "Show top 10"; "Show trend"]);
   ("total", ["Total sales by category"; "Total revenue by month";
              "Total orders"]);
   ("top", ["Top 10 products"; "Top 5 customers"; "Top performing regions"]);
   ("by", ["by category"; "by month"; "by region"; "by customer"]);
   ("compare", ["Compare regions"; "Compare products"; "Compare months"])].

(** [pattern.test(question)] for the pattern of [keyword]. *)
Definition test (keyword question : string) : bool :=
  startsWith (toLowerCase question) keyword
  && allWhiteSpace (sliceFrom (String.length keyword) question).

(** The loop over [SMART_SUGGESTIONS]: the list of the first entry whose
    pattern matches. *)
Fixpoint firstMatch (rules : list (string * list string)) (question : string)
    : option (list string) :=
  match rules with
  | [] => None
  | (keyword, sugg) :: rest =>
      if test keyword question then Some sugg else firstMatch rest question
  end.

(** [[...new Set(l)]]: the first occurrence of each string, in order;
    [seen] holds the strings met so far. *)
Fixpoint unique (seen l : list string) : list string :=
  match l with
  | [] => []
  | x :: rest =>
      if existsb (String.eqb x) seen then unique seen rest
      else x :: unique (x :: seen) rest
  end.

(** The filter of the candidates: [ex] includes the input and is not the
    input, both in lower case. *)
Definition candidate (q ex : string) : bool :=
  includes (toLowerCase ex) q && negb (String.eqb (toLowerCase ex) q).

(** The [suggestions] memo. *)
Definition suggestions (question : string) (recentQueries : list string)
    : list string :=
  if String.eqb (trim question) EmptyString then []
  else
    match firstMatch SMART_SUGGESTIONS question with
    | Some sugg => sugg
    | None =>
        let q := toLowerCase question in
        let allQueries := unique [] (recentQueries ++ EXAMPLE_QUERIES)%list in
        slice (filter (candidate q) allQueries) 0 5
    end.

(** The state of the component. *)
Record State : Type := mkState {
  question : string;
  showSuggestionsState : bool;
  selectedSuggestion : Z
}.

(** The keys [handleKeyDown] tells apart. *)
Inductive Key : Type := Enter | ArrowDown | ArrowUp | Escape | OtherKey.

(** [showSuggestions] *)
Definition showSuggestions (recentQueries : list string) (st : State) : bool :=
  showSuggestionsState st
  && Nat.ltb 0 (List.length (suggestions (question st) recentQueries))
  && Nat.ltb 0 (String.length (trim (question st))).

(** [suggestions[i]] where it is truthy: an entry that is there and is not
    the empty string. *)
Definition truthyAt (l : list string) (i : Z) : option string :=
  match nth_error l (Z.to_nat i) with
  | Some s => if String.eqb s EmptyString then None else Some s
  | None => None
  end.

(** [handleSubmit]; the second component is the argument of [onQuery] when
    it is called. *)
Definition handleSubmit (isLoading : bool) (st : State)
    : State * option string :=
  if negb (String.eqb (trim (question st)) EmptyString) && negb isLoading then
    (mkState (question st) false (selectedSuggestion st),
     Some (trim (question st)))
  else (st, None).

(** [handleKeyDown] *)
Definition handleKeyDown (isLoading : bool) (recentQueries : list string)
    (st : State) (key : Key) : State * option string :=
  let sugg := suggestions (question st) recentQueries in
  match key with
  | Enter =>
      match (if (0 <=? selectedSuggestion st)%Z
             then truthyAt sugg (selectedSuggestion st) else None) with
      | Some s => (mkState s false (-1), None)
      | None => handleSubmit isLoading st
      end
  | ArrowDown =>
      (mkState (question st) (showSuggestionsState st)
         (Z.min (selectedSuggestion st + 1) (Z.of_nat (List.length sugg) - 1)),
       None)
  | ArrowUp =>
      (mkState (question st) (showSuggestionsState st)
         (Z.max (selectedSuggestion st - 1) (-1)),
       None)
  | Escape => (mkState (question st) false (-1), None)
  | OtherKey => (st, None)
  end.

End QueryInterface.

(* ================================================================== *)
(** * The toast provider (ToastContext) *)
(* ================================================================== *)

Module Toasts.

(** [type ToastType] *)
Inductive ToastType : Type := success | error | warning | info.

(** [interface Toast]; an optional field that is absent is [None]. *)
Record Toast : Type := mkToast {
  id : string;
  type : ToastType;
  title : string;
  message : option string;
  duration : option number
}.

(** [Omit<Toast, 'id'>], the argument of [addToast]. *)
Module Input.
Record t : Type := mk {
  type : ToastType;
  title : string;
  message : option string;
  duration : option number
}.
End Input.

(** [removeToast] *)
Definition removeToast (i : string) (toasts : list Toast) : list Toast :=
  filter (fun t => negb (String.eqb (id t) i)) toasts.

(** [addToast], given what [Math.random().toString(36)] returns: the new
    list and, when a timer is set, the identifier it will remove and its
    delay. *)
Definition addToast (random36 : string) (toast : Input.t)
    (toasts : list Toast) : list Toast * option (string * number) :=
  let i := sliceFrom 2 random36 in
  let newToast :=
    mkToast i (Input.type toast) (Input.title toast) (Input.message toast)
      (Input.duration toast) in
  let d := match Input.duration toast with
           | Some d => d
           | None => 5000%float
           end in
  ((toasts ++ [newToast])%list,
   if PrimFloat.ltb 0 d then Some (i, d) else None).

(** [success], [error], [warning] and [info] *)
Definition notify (kind : ToastType) (random36 title : string)
    (message : option string) (toasts : list Toast)
    : list Toast * option (string * number) :=
  addToast random36
    (Input.mk kind title message
       (match kind with
        | error => Some 8000%float
        | _ => None
        end))
    toasts.

End Toasts.

(* ================================================================== *)
(** * Keyboard shortcuts (useKeyboardShortcuts) *)
(* ================================================================== *)

Module Shortcuts.

(** [interface KeyboardShortcut] without its description; an optional flag
    that is absent is [false], and [action] stands for the callback. *)
Record KeyboardShortcut (A : Type) : Type := mkShortcut {
  key : string;
  ctrl : bool;
  shift : bool;
  alt : bool;
  meta : bool;
  action : A
}.

Arguments mkShortcut {A}.
Arguments key {A}.
Arguments ctrl {A}.
Arguments shift {A}.
Arguments alt {A}.
Arguments meta {A}.
Arguments action {A}.

(** What the handler reads of a [keydown] event. *)
Record KeyEvent : Type := mkEvent {
  eventKey : string;
  ctrlKey : bool;
  metaKey : bool;
  shiftKey : bool;
  altKey : bool;
  tagName : string;
  isContentEditable : bool
}.

Definition isTyping (event : KeyEvent) : bool :=
  existsb (String.eqb (tagName event)) ["INPUT"; "TEXTAREA"; "SELECT"]
  || isContentEditable event.

(** The four matches of the loop body. *)
Definition matches {A : Type} (event : KeyEvent) (s : KeyboardShortcut A)
    : bool :=
  let keyMatch :=
    String.eqb (toLowerCase (eventKey event)) (toLowerCase (key s)) in
  let ctrlMatch := if ctrl s then ctrlKey event || metaKey event else true in
  let shiftMatch := if shift s then shiftKey event
                    else negb (shiftKey event) in
  let altMatch := if alt s then altKey event else negb (altKey event) in
  keyMatch && ctrlMatch && shiftMatch && altMatch.

(** The loop of [handleKeyDown]: the action that is run, if any. *)
Fixpoint firstFiring {A : Type} (event : KeyEvent)
    (shortcuts : list (KeyboardShortcut A)) : option A :=
  match shortcuts with
  | [] => None
  | s :: rest =>
      if matches event s then
        if isTyping event && negb (ctrl s) && negb (meta s) then
          firstFiring event rest
        else Some (action s)
      else firstFiring event rest
  end.

(** [handleKeyDown] *)
Definition handleKeyDown {A : Type} (enabled : bool) (event : KeyEvent)
    (shortcuts : list (KeyboardShortcut A)) : option A :=
  if enabled then firstFiring event shortcuts else None.

(** A shortcut the loop goes past: it does not match, or it is held back
    by typing. *)
Definition passedOver {A : Type} (event : KeyEvent) (s : KeyboardShortcut A)
    : Prop :=
  matches event s = false
  \/ (isTyping event = true /\ ctrl s = false /\ meta s = false).

(** The list that [useAppShortcuts] builds; a callback that is not given is
    [None]. *)
Definition useAppShortcuts {A : Type}
    (onSearch onEscape onToggleTheme onToggleHistory : option A)
    : list (KeyboardShortcut A) :=
  ((match onSearch with
    | Some f => [mkShortcut "k" true false false false f;
                 mkShortcut "/" false false false false f]
    | None => []
    end)
   ++ (match onEscape with
       | Some f => [mkShortcut "Escape" false false false false f]
       | None => []
       end)
   ++ (match onToggleTheme with
       | Some f => [mkShortcut "d" true true false false f]
       | None => []
       end)
   ++ (match onToggleHistory with
       | Some f => [mkShortcut "h" true false false false f]
       | None => []
       end))%list.

End Shortcuts.

(* ================================================================== *)
(** * A reader of tab-separated text *)
(* ================================================================== *)

(** What a spreadsheet does with pasted text: lines at line feeds, cells at
    tabs, nothing quoted. *)
Module TsvReader.

(** The pieces of [s] between the separators [sep]. *)
Fixpoint splitOn (sep : ascii) (s : string) : list string :=
  match s with
  | EmptyString => [EmptyString]
  | String c s' =>
      if Ascii.eqb c sep then EmptyString :: splitOn sep s'
      else
        match splitOn sep s' with
        | piece :: pieces => String c piece :: pieces
        | [] => [str1 c]
        end
  end.

Definition tab : ascii := "009"%char.

Definition parseTSV (text : string) : list (list string) :=
  map (splitOn tab) (splitOn newline text).

End TsvReader.

(* ================================================================== *)
(** * Further predicates and sample inputs *)
(* ================================================================== *)

(** The sort column and the sort direction are set together. *)
Definition sortStateOk (st : option string * option DataTable.Direction)
    : bool :=
  match st with
  | (None, None) | (Some _, Some _) => true
  | _ => false
  end.

(** The row holds a number under the column. *)
Definition hasNumber (col : Column) (row : Row) : bool :=
  match get row (name col) with
  | Some (VNum _) => true
  | _ => false
  end.

(** [s] holds neither a tab nor a line feed. *)
Definition tabFree (s : string) : bool :=
  negb (includesChar s TsvReader.tab) && negb (includesChar s newline).

(** No name of a column and no cell under one holds a tab or a line
    feed. *)
Definition tsvSafe {host : Host} (data : list Row) (columns : list Column)
    : bool :=
  forallb (fun col => tabFree (name col)) columns
  && forallb (fun row =>
                forallb (fun col =>
                           tabFree (ExportButton.tsvCell (get row (name col))))
                        columns)
             data.

(** What a user does to the history. *)
Inductive HistoryAction : Type :=
  | Add (env : QueryHistory.Env) (item : QueryHistory.Input.t)
  | Remove (id : string)
  | Clear.

Definition applyAction {host : Host} (st : QueryHistory.State)
    (a : HistoryAction) : QueryHistory.State :=
  match a with
  | Add env item => QueryHistory.addToHistory env item st
  | Remove i => QueryHistory.removeFromHistory i st
  | Clear => QueryHistory.clearHistory st
  end.

(** The state after a run of actions on the state the hook starts in when
    nothing is stored. *)
Definition runActions {host : Host} (actions : list HistoryAction)
    : QueryHistory.State :=
  fold_left applyAction actions (QueryHistory.mkState [] None).

(** The stored item mirrors the history: there is none and the history is
    empty, or it is the history serialized. *)
Definition inSync {host : Host} (st : QueryHistory.State) : Prop :=
  (QueryHistory.storage st = None /\ QueryHistory.history st = [])
  \/ QueryHistory.storage st
     = Some (QueryHistory.persist (QueryHistory.history st)).

(** The key of the deduplication: the question in lower case. *)
Definition questionKey (h : QueryHistory.QueryHistoryItem) : string :=
  toLowerCase (QueryHistory.question h).

(** [a] is at least as new as [b]. *)
Definition newerOrSame (a b : QueryHistory.QueryHistoryItem) : Prop :=
  PrimFloat.leb (QueryHistory.timestamp b) (QueryHistory.timestamp a) = true.

(** The selected index points at a suggestion or is -1. *)
Definition selectionOk (recentQueries : list string)
    (st : QueryInterface.State) : Prop :=
  (-1 <= QueryInterface.selectedSuggestion st
   < Z.of_nat (List.length
                 (QueryInterface.suggestions (QueryInterface.question st)
                    recentQueries)))%Z.

Module Sample2.

(** Thirty rows with the numbers 1 to 30 under [n]. *)
Definition thirtyRows : list Row :=
  map (fun k => [("n", VNum (numOfNat k))]) (seq 1 30).

(** A row with nothing under [company] and no [revenue]. *)
Definition emptyRow : Row := [("company", VNull)].

(** Three entries, newest first, the oldest of them [Show sales]. *)
Definition threeEntries : QueryHistory.State :=
  QueryHistory.mkState
    [QueryHistory.mkItem "1700000050000-k2j8x0qplw" "Top customers"
       1700000050000 5 90 0.75;
     QueryHistory.mkItem "1700000020000-b7m1c9zretu" "Revenue by month"
       1700000020000 12 150 0.25;
     QueryHistory.mkItem "1700000000000-4fzyo82mvyr" "Show sales"
       1700000000000 10 120 0.5]
    None.

Definition oneEntry : QueryHistory.State :=
  QueryHistory.mkState
    [QueryHistory.mkItem "1700000000000-4fzyo82mvyr" "Show sales"
       1700000000000 10 120 0.5]
    None.

End Sample2.

(* ================================================================== *)
(** * Properties *)
(* ================================================================== *)

Local Open Scope list_scope.

(** ** Slicing *)

Section SliceFacts.
Context {A : Type}.
Implicit Types l : list A.

Lemma slice_window l (start size : nat) :
  slice l (Z.of_nat start) (Z.of_nat start + Z.of_nat size)
  = firstn size (skipn start l).
Proof.
  unfold slice, relIndex.
  assert (Hs : (Z.of_nat start <? 0)%Z = false) by (apply Z.ltb_ge; lia).
  assert (He : (Z.of_nat start + Z.of_nat size <? 0)%Z = false)
    by (apply Z.ltb_ge; lia).
  rewrite Hs, He.
  set (len := Z.of_nat (List.length l)).
  destruct (Nat.le_gt_cases (List.length l) start) as [Hout | Hin].
  - rewrite (skipn_all2 l Hout), firstn_nil.
    replace (Z.to_nat (Z.min (Z.of_nat start) len)) with (List.length l)
      by (subst len; lia).
    rewrite skipn_all. apply firstn_nil.
  - replace (Z.to_nat (Z.min (Z.of_nat start) len)) with start
      by (subst len; lia).
    destruct (Nat.le_gt_cases (start + size) (List.length l)) as [Hfit | Hcut].
    + f_equal. subst len. lia.
    + replace (Z.to_nat (Z.min (Z.of_nat start + Z.of_nat size) len
                         - Z.min (Z.of_nat start) len))
        with (List.length (skipn start l))
        by (rewrite length_skipn; subst len; lia).
      rewrite firstn_all. symmetry. apply firstn_all2.
      rewrite length_skipn. lia.
Qed.

Lemma slice_prefix l (n : nat) : slice l 0 (Z.of_nat n) = firstn n l.
Proof. exact (slice_window l 0 n). Qed.

(** The first [k] windows of width [n] make up the first [k * n] elements. *)
Lemma windows_prefix l (n k : nat) :
  List.concat (map (fun p => firstn n (skipn (p * n) l)) (seq 0 k))
  = firstn (k * n) l.
Proof.
  induction k as [| k IH].
  - reflexivity.
  - rewrite seq_S, map_app, concat_app, IH. cbn [map List.concat plus].
    rewrite app_nil_r.
    rewrite <- (firstn_skipn (k * n) (firstn (S k * n) l)).
    f_equal.
    + rewrite firstn_firstn. f_equal. lia.
    + rewrite skipn_firstn_comm. f_equal. lia.
Qed.

End SliceFacts.

(** ** Sorting *)

Section SortFacts.
Context {A : Type} (comparefn : A -> A -> number).

Lemma insert_perm (x : A) (l : list A) :
  Permutation (insert comparefn x l) (x :: l).
Proof.
  induction l as [| e l IH]; cbn.
  - reflexivity.
  - destruct (PrimFloat.ltb (comparefn e x) 0); [| reflexivity].
    rewrite IH. apply perm_swap.
Qed.

Lemma Array_sort_perm (l : list A) : Permutation (Array_sort comparefn l) l.
Proof.
  induction l as [| x l IH]; cbn.
  - constructor.
  - rewrite insert_perm. now constructor.
Qed.

Lemma insert_HdRel (x a : A) (l : list A) :
  PrimFloat.ltb (comparefn a x) 0 = true ->
  HdRel (inOrder comparefn) a l ->
  HdRel (inOrder comparefn) a (insert comparefn x l).
Proof.
  intros Hax Hhd. destruct l as [| e l]; cbn.
  - constructor. now left.
  - destruct (PrimFloat.ltb (comparefn e x) 0).
    + constructor. now inversion Hhd.
    + constructor. now left.
Qed.

Lemma insert_Sorted (x : A) (l : list A) :
  Sorted (inOrder comparefn) l ->
  Sorted (inOrder comparefn) (insert comparefn x l).
Proof.
  induction 1 as [| e l Hsorted IH Hhd]; cbn.
  - now repeat constructor.
  - destruct (PrimFloat.ltb (comparefn e x) 0) eqn:Hex.
    + constructor; [assumption | now apply insert_HdRel].
    + constructor; [now constructor |]. constructor. now right.
Qed.

(** Neighbours in the result are in the order of the comparator. *)
Lemma Array_sort_Sorted (l : list A) :
  Sorted (inOrder comparefn) (Array_sort comparefn l).
Proof.
  induction l as [| x l IH]; cbn; [constructor | now apply insert_Sorted].
Qed.

(** Elements marked [late] never compare below another element, and every
    other element compares below them: then a list whose neighbours are in
    the order of the comparator has them at the end, however it was
    sorted. *)
Variable late : A -> bool.
Hypothesis late_not_below :
  forall e x, late e = true -> PrimFloat.ltb (comparefn e x) 0 = false.
Hypothesis early_below_late :
  forall e x, late e = false -> late x = true ->
              PrimFloat.ltb (comparefn e x) 0 = true.

Lemma inOrder_late (a b : A) :
  inOrder comparefn a b -> late a = true -> late b = true.
Proof.
  intros [Hab | Hba] Ha.
  - rewrite (late_not_below a b Ha) in Hab. discriminate.
  - destruct (late b) eqn:Hb; [reflexivity |].
    rewrite (early_below_late b a Hb Ha) in Hba. discriminate.
Qed.

Lemma Sorted_late_tail (a : A) (l : list A) :
  Sorted (inOrder comparefn) (a :: l) -> late a = true ->
  Forall (fun e => late e = true) l.
Proof.
  revert a. induction l as [| b l IH]; intros a Hsorted Ha; [constructor |].
  apply Sorted_inv in Hsorted. destruct Hsorted as [Hsorted Hhd].
  apply HdRel_inv in Hhd.
  assert (Hb : late b = true) by exact (inOrder_late a b Hhd Ha).
  constructor; [exact Hb | exact (IH b Hsorted Hb)].
Qed.

(** Nothing follows a late element but late elements. *)
Lemma Sorted_late_nth (l : list A) (i j : nat) (a b : A) :
  Sorted (inOrder comparefn) l -> i < j ->
  nth_error l i = Some a -> nth_error l j = Some b ->
  late a = true -> late b = true.
Proof.
  revert i j. induction l as [| e l IH]; intros i j Hsorted Hij Ha Hb Hlate.
  - destruct i; discriminate.
  - destruct j as [| j]; [lia |]. cbn in Hb. destruct i as [| i].
    + cbn in Ha. injection Ha as ->.
      pose proof (Sorted_late_tail a l Hsorted Hlate) as Htail.
      rewrite Forall_forall in Htail. apply Htail.
      now apply nth_error_In in Hb.
    + cbn in Ha. apply Sorted_inv in Hsorted.
      apply (IH i j); [tauto | lia | assumption ..].
Qed.

End SortFacts.

(** ** DataTable: pages *)

Section TableFacts.
Context {host : Host}.
Import DataTable.

Lemma totalPages_div (filtered : list Row) :
  totalPages filtered = ((Z.of_nat (List.length filtered) + 24) / 25)%Z.
Proof.
  unfold totalPages, pageSize, Qceiling, Qfloor.
  set (n := Z.of_nat (List.length filtered)).
  cbn. rewrite Z.mul_1_r.
  assert (Hn : (0 <= n)%Z) by (subst n; lia).
  clearbody n.
  pose proof (Z.div_mod (- n) 25 ltac:(lia)) as H1.
  pose proof (Z.mod_pos_bound (- n) 25 ltac:(lia)) as H2.
  pose proof (Z.div_mod (n + 24) 25 ltac:(lia)) as H3.
  pose proof (Z.mod_pos_bound (n + 24) 25 ltac:(lia)) as H4.
  lia.
Qed.

Lemma sortedData_perm (filtered : list Row) (sortColumn : option string)
    (sortDirection : option Direction) :
  Permutation (sortedData filtered sortColumn sortDirection) filtered.
Proof.
  unfold sortedData.
  destruct sortColumn as [c |], sortDirection as [d |]; try reflexivity.
  destruct (String.eqb c EmptyString); [reflexivity | apply Array_sort_perm].
Qed.

Lemma paginatedData_window (sorted : list Row) (p : nat) :
  paginatedData sorted (Z.of_nat p) = firstn 25 (skipn (p * 25) sorted).
Proof.
  unfold paginatedData, pageSize.
  replace (Z.of_nat p * 25)%Z with (Z.of_nat (p * 25)) by lia.
  exact (slice_window sorted (p * 25) 25).
Qed.

Lemma paginatedData_nth (sorted : list Row) (p i : nat) :
  nth_error (paginatedData sorted (Z.of_nat p)) i
  = if Nat.ltb i 25 then nth_error sorted (p * 25 + i) else None.
Proof.
  rewrite paginatedData_window, nth_error_firstn.
  destruct (Nat.ltb i 25); [apply nth_error_skipn | reflexivity].
Qed.

(** C7. Pages of 25 rows, read in order from page 0 to the last of the
    [totalPages] pages, give back the sorted rows exactly; a page that starts
    at or after the end of the rows is empty; and [totalPages] is the
    ceiling of the number of filtered rows over 25, the integer [n] with
    [25 (n - 1) < count <= 25 n].  A page holds 25 rows at most: row [i] of
    page [p] is row [25 p + i] of the sorted rows for [i] below 25, and
    there is no other; every page before the last of the [totalPages] pages
    holds 25 rows and the last one holds the rows that remain. *)
Theorem pages_cover_sorted_data (filtered : list Row)
    (sortColumn : option string) (sortDirection : option Direction) :
  let sorted := sortedData filtered sortColumn sortDirection in
  List.concat (map (fun p => paginatedData sorted (Z.of_nat p))
                   (seq 0 (Z.to_nat (totalPages filtered))))
  = sorted
  /\ (forall page : Z,
        (Z.of_nat (List.length sorted) <= page * pageSize)%Z ->
        paginatedData sorted page = [])
  /\ (pageSize * (totalPages filtered - 1)
      < Z.of_nat (List.length filtered)
      <= pageSize * totalPages filtered)%Z
  /\ (forall p i : nat,
        nth_error (paginatedData sorted (Z.of_nat p)) i
        = if Nat.ltb i 25 then nth_error sorted (p * 25 + i) else None)
  /\ (forall p : nat,
        List.length (paginatedData sorted (Z.of_nat p))
        = Nat.min 25 (List.length sorted - p * 25))
  /\ (forall p : nat,
        (Z.of_nat p < totalPages filtered - 1)%Z ->
        List.length (paginatedData sorted (Z.of_nat p)) = 25).
Proof.
  intros sorted.
  assert (Hlen : List.length sorted = List.length filtered)
    by apply Permutation_length, sortedData_perm.
  pose proof (totalPages_div filtered) as Htotal.
  set (n := Z.of_nat (List.length filtered)) in *.
  assert (Hn : (0 <= n)%Z) by (subst n; lia).
  pose proof (Z.div_mod (n + 24) 25 ltac:(lia)) as Hdiv.
  pose proof (Z.mod_pos_bound (n + 24) 25 ltac:(lia)) as Hmod.
  assert (Hsize : forall p : nat,
             List.length (paginatedData sorted (Z.of_nat p))
             = Nat.min 25 (List.length sorted - p * 25)).
  { intros p. now rewrite paginatedData_window, length_firstn, length_skipn. }
  split; [| split; [| split; [| split; [| split]]]].
  - rewrite (map_ext _ (fun p => firstn 25 (skipn (p * 25) sorted)))
      by apply paginatedData_window.
    rewrite windows_prefix. apply firstn_all2. rewrite Hlen. subst n. lia.
  - intros page Hpage. unfold pageSize in Hpage.
    assert (Hpos : (0 <= page)%Z) by lia.
    rewrite <- (Z2Nat.id page Hpos), paginatedData_window.
    rewrite skipn_all2 by lia. reflexivity.
  - unfold pageSize. lia.
  - apply paginatedData_nth.
  - exact Hsize.
  - intros p Hp. rewrite Hsize, Hlen. subst n. lia.
Qed.

End TableFacts.

(** ** DataTable: sorting *)

Section SortedDataFacts.
Context {host : Host}.
Import DataTable.

Lemma compareRows_null_first (c : string) (d : Direction) (a b : Row) :
  isNullish (get a c) = true ->
  PrimFloat.ltb (compareRows c d a b) 0 = false.
Proof. unfold compareRows. now intros ->. Qed.

Lemma compareRows_null_second (c : string) (d : Direction) (a b : Row) :
  isNullish (get a c) = false -> isNullish (get b c) = true ->
  PrimFloat.ltb (compareRows c d a b) 0 = true.
Proof. unfold compareRows. now intros -> ->. Qed.

(** X22.  Sorting under a column name that is not empty.  The sorted rows
    are the filtered rows in another order; no row with a key follows a row
    whose key is null or undefined, in either direction; neighbours are in
    the order of the comparator, and every list of rows with neighbours in
    that order has the null keys last, whichever way an engine sorts; the
    comparator of two numeric keys is their signed difference, and of any
    other two keys that are not null the locale-aware comparison of their
    string forms, the operands swapped for the descending direction. *)
Theorem sorted_rows_nulls_last (filtered : list Row) (c : string)
    (d : Direction) :
  String.eqb c EmptyString = false ->
  let sorted := sortedData filtered (Some c) (Some d) in
  Permutation sorted filtered
  /\ nullsLast c sorted
  /\ Sorted (inOrder (compareRows c d)) sorted
  /\ (forall out, Sorted (inOrder (compareRows c d)) out -> nullsLast c out)
  /\ (forall a b x y,
        get a c = Some (VNum x) -> get b c = Some (VNum y) ->
        compareRows c d a b
        = match d with
          | asc => PrimFloat.sub x y
          | desc => PrimFloat.sub y x
          end)
  /\ (forall a b u v,
        get a c = Some u -> get b c = Some v ->
        u <> VNull -> v <> VNull ->
        (forall x y, u = VNum x -> v = VNum y -> False) ->
        compareRows c d a b
        = match d with
          | asc => localeCompare (String_ (Some u)) (String_ (Some v))
          | desc => localeCompare (String_ (Some v)) (String_ (Some u))
          end).
Proof.
  intros Hc sorted. subst sorted. unfold sortedData. rewrite Hc.
  split; [apply Array_sort_perm |].
  assert (Hlast : forall out, Sorted (inOrder (compareRows c d)) out ->
                              nullsLast c out).
  { intros out Hout i j a b.
    apply (Sorted_late_nth (compareRows c d) (fun r => isNullish (get r c)));
      [| | exact Hout].
    - intros e x. apply compareRows_null_first.
    - intros e x. apply compareRows_null_second. }
  split; [apply Hlast, Array_sort_Sorted |].
  split; [apply Array_sort_Sorted |].
  split; [exact Hlast |].
  split.
  - intros a b x y Ha Hb. unfold compareRows. rewrite Ha, Hb. reflexivity.
  - intros a b u v Ha Hb Hu Hv Hmixed. unfold compareRows. rewrite Ha, Hb.
    destruct u as [| x | s]; [congruence | |];
      destruct v as [| y | t]; try congruence; try reflexivity.
    now destruct (Hmixed x y).
Qed.

End SortedDataFacts.

(** The example of the specification: [sort([5, null, 3], asc)] is
    [[3, 5, null]]. *)
Example sort_five_null_three_asc :
  DataTable.sortedData (host := TestHost.host) Sample.fiveNullThree
    (Some "v") (Some DataTable.asc)
  = [[("v", VNum 3)]; [("v", VNum 5)]; [("v", VNull)]].
Proof. vm_compute. reflexivity. Qed.

(** [sort([5, null, 3], desc)] is [[5, 3, null]]. *)
Example sort_five_null_three_desc :
  DataTable.sortedData (host := TestHost.host) Sample.fiveNullThree
    (Some "v") (Some DataTable.desc)
  = [[("v", VNum 5)]; [("v", VNum 3)]; [("v", VNull)]].
Proof. vm_compute. reflexivity. Qed.

(** The statement of X22 at the rows 5, null, 3 sorted ascending under
    [v]. *)
Lemma sorted_rows_nulls_last_witness :
  Permutation
    (DataTable.sortedData (host := TestHost.host) Sample.fiveNullThree
       (Some "v") (Some DataTable.asc))
    Sample.fiveNullThree
  /\ nullsLast "v"
       (DataTable.sortedData (host := TestHost.host) Sample.fiveNullThree
          (Some "v") (Some DataTable.asc)).
Proof.
  pose proof (sorted_rows_nulls_last (host := TestHost.host)
                Sample.fiveNullThree "v" DataTable.asc eq_refl) as H.
  exact (conj (proj1 H) (proj1 (proj2 H))).
Defined.

(** C2.  The code at a column whose name is the empty string: a click on
    its header stores that name with the ascending direction, as for any
    other column, but the guard of the sort takes the empty name for no
    column at all and leaves the rows as they are, a null key in front of
    a number. *)
Lemma sort_skips_empty_column_name :
  DataTable.handleSort (None, None) EmptyString
  = (Some EmptyString, Some DataTable.asc)
  /\ DataTable.sortedData (host := TestHost.host) Sample.namelessColumnRows
       (Some EmptyString) (Some DataTable.asc)
     = [[(EmptyString, VNull)]; [(EmptyString, VNum 5)]]
  /\ (nullsLast EmptyString
        (DataTable.sortedData (host := TestHost.host)
           Sample.namelessColumnRows (Some EmptyString) (Some DataTable.asc))
      -> False).
Proof.
  split; [reflexivity |].
  split; [reflexivity |].
  intros H.
  specialize (H 0 1 [(EmptyString, VNull)] [(EmptyString, VNum 5)]
                ltac:(lia) eq_refl eq_refl eq_refl).
  discriminate H.
Qed.

(** ** DataTable: filtering *)

Lemma trimEnd_nonblank_head (c : ascii) (s : string) :
  isWhiteSpace c = false ->
  String.eqb (trimEnd (String c s)) EmptyString = false.
Proof.
  intros Hc. cbn [trimEnd]. destruct (trimEnd s); [rewrite Hc |]; reflexivity.
Qed.

(** The trimmed term is empty exactly when the term is all white space. *)
Lemma trim_empty (s : string) :
  String.eqb (trim s) EmptyString = allWhiteSpace s.
Proof.
  unfold trim. induction s as [| c s IH]; [reflexivity |].
  cbn [trimStart allWhiteSpace]. destruct (isWhiteSpace c) eqn:Hc.
  - exact IH.
  - now apply trimEnd_nonblank_head.
Qed.

Section FilteredDataFacts.
Context {host : Host}.
Import DataTable.

Lemma filteredData_predicate (term : string) (columns : list Column)
    (row : Row) :
  existsb (fun col =>
             let val := get row (name col) in
             negb (isNullish val)
             && includes (toLowerCase (String_ val)) term) columns
  = matchesTerm term columns row.
Proof.
  unfold matchesTerm. induction columns as [| col columns IH]; cbn.
  - reflexivity.
  - rewrite IH. destruct (get row (name col)) as [[| n | s] |]; reflexivity.
Qed.

(** C10.  A search term of white space only leaves the rows as they are.
    Any other term filters by its lower-cased form as typed, not trimmed: a
    row stays when some declared column holds a value, not null, whose
    lower-cased string form includes it.  So white space around the term
    counts: the term [b] followed by a space does not find the value [ab],
    which the term [b] finds. *)
Theorem filter_uses_untrimmed_term (data : list Row) (columns : list Column)
    (searchTerm : string) :
  (allWhiteSpace searchTerm = true ->
   filteredData data columns searchTerm = data)
  /\ (allWhiteSpace searchTerm = false ->
      filteredData data columns searchTerm
      = filter (matchesTerm (toLowerCase searchTerm) columns) data)
  /\ (let row := [("name", VStr "ab")] in
      let cols := [mkColumn "name" "dimension"] in
      filteredData [row] cols "b " = []
      /\ filteredData [row] cols (trim "b ") = [row]).
Proof.
  unfold filteredData. rewrite trim_empty.
  split; [now intros -> |].
  split; [| split; reflexivity].
  intros ->. apply filter_ext. intros row. apply filteredData_predicate.
Qed.

End FilteredDataFacts.

(** ** SummaryStats *)

Lemma slice_all {A : Type} (l : list A) (n : nat) :
  List.length l <= n -> slice l 0 (Z.of_nat n) = l.
Proof. intros Hl. rewrite slice_prefix. now apply firstn_all2. Qed.

Section StatsFacts.
Context {host : Host}.
Import SummaryStats.

Lemma totalCards_length (data : list Row) (cols : list Column) :
  List.length (totalCards data cols) <= 1.
Proof.
  unfold totalCards. destruct (nth_error cols 0); [| cbn; lia].
  destruct (Nat.ltb 0 _); cbn; lia.
Qed.

Lemma averageCards_length (data : list Row) (cols : list Column) :
  List.length (averageCards data cols) <= 1.
Proof.
  unfold averageCards. destruct (nth_error cols 1); [| cbn; lia].
  destruct (Nat.ltb 0 _); cbn; lia.
Qed.

Lemma changeCards_length (data : list Row) (cols : list Column) :
  List.length (changeCards data cols) <= 1.
Proof.
  unfold changeCards. destruct (nth_error cols 0); [| cbn; lia].
  destruct (Nat.leb 2 _); [| cbn; lia].
  destruct data as [| row0 data]; [cbn; lia |].
  destruct (get (last (row0 :: data) []) (name c)) as [[| l |] |];
    try (cbn; lia).
  destruct (get row0 (name c)) as [[| f |] |]; try (cbn; lia).
  destruct (strictNe f 0%float); cbn; lia.
Qed.

(** With rows and columns at hand the memo is the list of pushed cards: the
    final [slice(0, 4)] never cuts, there being four cards at most. *)
Lemma stats_cards (data : list Row) (columns : list Column) :
  0 < List.length data -> 0 < List.length columns ->
  stats data columns
  = [rowCountCard data] ++ totalCards data (measureColumns columns)
    ++ averageCards data (measureColumns columns)
    ++ changeCards data (measureColumns columns).
Proof.
  intros Hdata Hcolumns. unfold stats.
  destruct (Nat.eqb_spec (List.length data) 0) as [| _]; [lia |].
  destruct (Nat.eqb_spec (List.length columns) 0) as [| _]; [lia |].
  cbn [orb]. change 4%Z with (Z.of_nat 4). apply slice_all.
  pose proof (totalCards_length data (measureColumns columns)).
  pose proof (averageCards_length data (measureColumns columns)).
  pose proof (changeCards_length data (measureColumns columns)).
  rewrite !length_app. cbn [List.length]. lia.
Qed.

(** C1, for a column list that is not empty.  With at least one row and at
    least one column the cards start with the row-count card, labelled
    [Total Rows], whose value is the number of rows in the form of the
    locale; without a column there is no card; there are four cards at
    most. *)
Theorem row_count_card_first (data : list Row) (columns : list Column) :
  0 < List.length data ->
  (0 < List.length columns ->
   exists rest, stats data columns = rowCountCard data :: rest)
  /\ (columns = [] -> stats data columns = [])
  /\ label (rowCountCard data) = "Total Rows"
  /\ value (rowCountCard data)
     = toLocaleString (numOfNat (List.length data))
  /\ List.length (stats data columns) <= 4.
Proof.
  intros Hdata.
  split.
  { intros Hcolumns. rewrite (stats_cards data columns Hdata Hcolumns).
    eexists. reflexivity. }
  split.
  { intros ->. unfold stats. cbn [List.length Nat.eqb]. now rewrite orb_true_r. }
  do 2 (split; [reflexivity |]).
  destruct columns as [| col columns].
  - unfold stats. cbn [List.length Nat.eqb]. rewrite orb_true_r. cbn. lia.
  - rewrite (stats_cards data (col :: columns) Hdata) by (cbn; lia).
    pose proof (totalCards_length data (measureColumns (col :: columns))).
    pose proof (averageCards_length data (measureColumns (col :: columns))).
    pose proof (changeCards_length data (measureColumns (col :: columns))).
    rewrite !length_app. cbn [List.length]. lia.
Qed.

End StatsFacts.

(** The statement of C1 at the three revenue rows. *)
Lemma row_count_card_first_witness :
  (exists rest,
     SummaryStats.stats (host := TestHost.host) Sample.revenueRows
       Sample.revenue
     = SummaryStats.rowCountCard (host := TestHost.host) Sample.revenueRows
       :: rest)
  /\ SummaryStats.value
       (SummaryStats.rowCountCard (host := TestHost.host) Sample.revenueRows)
     = "3".
Proof.
  pose proof (row_count_card_first (host := TestHost.host) Sample.revenueRows
                Sample.revenue ltac:(cbn; lia)) as H.
  exact (conj (proj1 H ltac:(cbn; lia)) eq_refl).
Defined.

(** C1 as stated fails for an empty column list: rows without columns give
    no card at all. *)
Lemma no_cards_without_columns :
  SummaryStats.stats (host := TestHost.host) Sample.revenueRows [] = [].
Proof. reflexivity. Qed.

Section ChangeCardFacts.
Context {host : Host}.
Import SummaryStats.

Lemma totalCards_labels (data : list Row) (cols : list Column)
    (card : StatCard) :
  In card (totalCards data cols) -> label card <> "Change".
Proof.
  unfold totalCards. destruct (nth_error cols 0); [| now intros []].
  destruct (Nat.ltb 0 _); [| now intros []].
  intros [<- | []]. cbn. discriminate.
Qed.

Lemma averageCards_labels (data : list Row) (cols : list Column)
    (card : StatCard) :
  In card (averageCards data cols) -> label card <> "Change".
Proof.
  unfold averageCards. destruct (nth_error cols 1); [| now intros []].
  destruct (Nat.ltb 0 _); [| now intros []].
  intros [<- | []]. cbn. discriminate.
Qed.

(** The cards in front of the change card carry other labels. *)
Lemma leading_labels (data : list Row) (cols : list Column)
    (card : StatCard) :
  In card ([rowCountCard data] ++ totalCards data cols
           ++ averageCards data cols) ->
  label card <> "Change".
Proof.
  rewrite !in_app_iff. intros [[<- | []] | [Hc | Hc]].
  - cbn. discriminate.
  - now apply (totalCards_labels data cols).
  - now apply (averageCards_labels data cols).
Qed.

Lemma measure_column_exists (columns : list Column) (col : Column) :
  nth_error (measureColumns columns) 0 = Some col ->
  0 < List.length columns.
Proof. destruct columns; [discriminate | cbn; lia]. Qed.

(** C5, with the guard on the types of the two ends.  Given a first measure
    column and two rows or more: when the values of the first and the last
    row under it are both numbers and the first is not zero, the change card
    is the last card, the only one labelled [Change]; its value is the
    change [(last - first) / |first| * 100] with one decimal, a percent sign
    and a plus sign in front when the change is at least zero, and its trend
    is up when the change is at least zero and down otherwise.  When the
    first value is zero or not a number, or the last value is not a number,
    no card is labelled [Change]. *)
Theorem change_card_rule (data : list Row) (columns : list Column)
    (col : Column) :
  nth_error (measureColumns columns) 0 = Some col ->
  2 <= List.length data ->
  let first := get (hd [] data) (name col) in
  let final := get (last data []) (name col) in
  (forall f l,
      first = Some (VNum f) -> final = Some (VNum l) ->
      PrimFloat.eqb f 0 = false ->
      let c := PrimFloat.mul
                 (PrimFloat.div (PrimFloat.sub l f) (PrimFloat.abs f)) 100 in
      (exists front,
          stats data columns = front ++ [changeCard f l]
          /\ forall card, In card front -> label card <> "Change")
      /\ label (changeCard f l) = "Change"
      /\ value (changeCard f l)
         = ((if PrimFloat.leb 0 c then "+" else EmptyString)
            ++ toFixed c 1 ++ "%")%string
      /\ trend (changeCard f l)
         = Some (if PrimFloat.leb 0 c then up else down))
  /\ ((forall f, first = Some (VNum f) -> PrimFloat.eqb f 0 = true)
      \/ (forall l, final <> Some (VNum l)) ->
      forall card, In card (stats data columns) -> label card <> "Change").
Proof.
  intros Hcol Hrows first final.
  assert (Hdata : 0 < List.length data) by lia.
  rewrite (stats_cards data columns Hdata (measure_column_exists _ _ Hcol)).
  assert (Hchange :
            changeCards data (measureColumns columns)
            = match final with
              | Some (VNum l) =>
                  match first with
                  | Some (VNum f) =>
                      if strictNe f 0 then [changeCard f l] else []
                  | _ => []
                  end
              | _ => []
              end).
  { unfold changeCards. rewrite Hcol.
    destruct (Nat.leb_spec 2 (List.length data)) as [_ | ?]; [| lia].
    subst first final. destruct data as [| row0 rest]; [cbn in Hdata; lia |].
    reflexivity. }
  split.
  - intros f l Hf Hl Hzero c. repeat split.
    exists ([rowCountCard data] ++ totalCards data (measureColumns columns)
            ++ averageCards data (measureColumns columns)).
    split; [| apply leading_labels].
    rewrite Hchange, Hf, Hl. unfold strictNe. rewrite Hzero. cbn [negb].
    now rewrite !app_assoc.
  - intros Hnone card. rewrite Hchange.
    assert (Hnil : match final with
                   | Some (VNum l) =>
                       match first with
                       | Some (VNum f) =>
                           if strictNe f 0 then [changeCard f l] else []
                       | _ => []
                       end
                   | _ => []
                   end = []).
    { destruct final as [[| l |] |]; try reflexivity.
      destruct Hnone as [Hfirst | Hfinal]; [| now destruct (Hfinal l)].
      destruct first as [[| f |] |]; try reflexivity.
      unfold strictNe. now rewrite (Hfirst f eq_refl). }
    rewrite Hnil, app_nil_r, app_assoc.
    rewrite <- app_assoc. apply leading_labels.
Qed.

End ChangeCardFacts.

(** The summary example of the specification: for the revenues 100, 200 and
    300 the total is 600 with the average 200, and the change is +200.0%. *)
Example revenue_cards :
  map (fun card => (SummaryStats.label card, SummaryStats.value card,
                    SummaryStats.subValue card, SummaryStats.trend card))
      (SummaryStats.stats (host := TestHost.host) Sample.revenueRows
         Sample.revenue)
  = [("Total Rows", "3", None, None);
     ("Total Revenue", "600", Some "Avg: 200", None);
     ("Change", "+200.0%", Some ("100 " ++ SummaryStats.arrow ++ " 300")%string,
      Some SummaryStats.up)].
Proof. vm_compute. reflexivity. Qed.

(** With zero in the first row no change card comes out. *)
Example no_change_card_from_zero :
  map SummaryStats.label
      (SummaryStats.stats (host := TestHost.host) Sample.revenueZeroFirst
         Sample.revenue)
  = ["Total Rows"; "Total Revenue"].
Proof. vm_compute. reflexivity. Qed.

(** The statement of C5 at the three revenue rows: from 100 to 300. *)
Lemma change_card_rule_witness :
  (exists front,
      SummaryStats.stats (host := TestHost.host) Sample.revenueRows
        Sample.revenue
      = front
        ++ [SummaryStats.changeCard (host := TestHost.host) 100%float
              300%float]
      /\ forall card,
          In card front -> SummaryStats.label card <> "Change")
  /\ SummaryStats.value
       (SummaryStats.changeCard (host := TestHost.host) 100%float 300%float)
     = "+200.0%".
Proof.
  pose proof (change_card_rule (host := TestHost.host) Sample.revenueRows
                Sample.revenue (mkColumn "revenue" "measure") eq_refl
                ltac:(cbn; lia)) as H.
  exact (conj (proj1 (proj1 H 100%float 300%float eq_refl eq_refl eq_refl))
              eq_refl).
Defined.

(** C5 as stated fails when the first value is not a number: it is not
    zero, yet no change card comes out. *)
Lemma no_change_card_from_text :
  map SummaryStats.label
      (SummaryStats.stats (host := TestHost.host) Sample.revenueUnknownFirst
         Sample.revenue)
  = ["Total Rows"; "Total Revenue"]
  /\ get (hd [] Sample.revenueUnknownFirst) "revenue" = Some (VStr "n/a").
Proof. split; vm_compute; reflexivity. Qed.

(** ** QueryHistory *)

Section HistoryFacts.
Context {host : Host}.
Import QueryHistory.

Lemma differs_sameQuestion (q : string) (h : QueryHistoryItem) :
  sameQuestion q h = negb (differs q h).
Proof. unfold sameQuestion, differs. now rewrite negb_involutive. Qed.

Lemma sameQuestion_newItem (env : Env) (item : Input.t) :
  sameQuestion (Input.question item) (newItem env item) = true.
Proof. unfold sameQuestion. cbn. apply String.eqb_refl. Qed.

Lemma filter_sameQuestion_nil (q : string) (l : list QueryHistoryItem) :
  Forall (fun h => differs q h = true) l -> filter (sameQuestion q) l = [].
Proof.
  induction 1 as [| h l Hh _ IH]; cbn; [reflexivity |].
  now rewrite differs_sameQuestion, Hh.
Qed.

Lemma filter_differs_all (q : string) (l : list QueryHistoryItem) :
  Forall (fun h => differs q h = true) l -> filter (differs q) l = l.
Proof.
  induction 1 as [| h l Hh _ IH]; cbn; [reflexivity |].
  now rewrite Hh, IH.
Qed.

Lemma Forall_filter_differs (q : string) (l : list QueryHistoryItem) :
  Forall (fun h => differs q h = true) (filter (differs q) l).
Proof. apply Forall_forall. intros h Hh. now apply filter_In in Hh. Qed.

Lemma Forall_firstn {A : Type} (P : A -> Prop) (n : nat) (l : list A) :
  Forall P l -> Forall P (firstn n l).
Proof.
  intros Hl. apply Forall_forall. intros x Hx.
  rewrite Forall_forall in Hl. apply Hl.
  rewrite <- (firstn_skipn n l). apply in_or_app. now left.
Qed.

(** The history after [addToHistory]: the new item, then the first 49 of
    the entries with another question. *)
Lemma addToHistory_history (env : Env) (item : Input.t) (st : State) :
  history (addToHistory env item st)
  = newItem env item
    :: firstn 49 (filter (differs (Input.question item)) (history st)).
Proof.
  unfold addToHistory. cbn [history].
  change MAX_HISTORY with (Z.of_nat 50). now rewrite slice_prefix.
Qed.

(** C3.  After [addToHistory] the new item is at index 0; it is the one
    entry of the history whose question equals the added question up to
    case; it carries the question and the figures of the argument and the
    time read from the clock. *)
Theorem add_puts_question_first_once (env : Env) (item : Input.t)
    (st : State) :
  let updated := history (addToHistory env item st) in
  nth_error updated 0 = Some (newItem env item)
  /\ filter (sameQuestion (Input.question item)) updated = [newItem env item]
  /\ question (newItem env item) = Input.question item
  /\ rowCount (newItem env item) = Input.rowCount item
  /\ executionTime (newItem env item) = Input.executionTime item
  /\ confidence (newItem env item) = Input.confidence item
  /\ timestamp (newItem env item) = stampNow env.
Proof.
  intros updated. subst updated. rewrite addToHistory_history.
  split; [reflexivity |]. split; [| now repeat split].
  cbn [filter]. rewrite sameQuestion_newItem. f_equal.
  apply filter_sameQuestion_nil, Forall_firstn, Forall_filter_differs.
Qed.

Lemma addToHistory_length (env : Env) (item : Input.t) (st : State) :
  List.length (history (addToHistory env item st)) <= 50.
Proof.
  rewrite addToHistory_history. cbn [List.length].
  pose proof (firstn_le_length 49
                (filter (differs (Input.question item)) (history st))).
  lia.
Qed.

Lemma firstn_push {A : Type} (n : nat) (x : A) (l : list A) :
  x :: firstn n (firstn (S n) l) = firstn (S n) (x :: l).
Proof. rewrite firstn_cons, firstn_firstn. do 2 f_equal. lia. Qed.

(** Calls with questions that differ up to case, on an empty history, keep
    the 50 newest items, the newest first. *)
Lemma addAll_distinct (calls : list (Env * Input.t)) :
  NoDup (map (fun call => toLowerCase (Input.question (snd call))) calls) ->
  history (addAll calls (mkState [] None))
  = firstn 50 (rev (map (fun call => newItem (fst call) (snd call)) calls)).
Proof.
  induction calls as [| call calls IH] using rev_ind; [reflexivity |].
  rewrite map_app. cbn [map]. intros Hnodup.
  apply NoDup_remove in Hnodup. rewrite app_nil_r in Hnodup.
  destruct Hnodup as [Hnodup Hnew].
  unfold addAll in *. rewrite fold_left_app. cbn [fold_left].
  rewrite addToHistory_history, (IH Hnodup), map_app, rev_app_distr.
  cbn [map rev app]. rewrite filter_differs_all.
  - exact (firstn_push 49 _ _).
  - apply Forall_firstn, Forall_forall. intros h Hh.
    apply in_rev, in_map_iff in Hh. destruct Hh as (call' & <- & Hin).
    unfold differs. cbn [question newItem].
    destruct (String.eqb_spec (toLowerCase (Input.question (snd call')))
                (toLowerCase (Input.question (snd call)))) as [Heq |];
      [| reflexivity].
    exfalso. apply Hnew. rewrite <- Heq.
    exact (in_map (fun c => toLowerCase (Input.question (snd c))) calls
             call' Hin).
Qed.

(** C4.  After [addToHistory] the history holds 50 entries at most.  Adding
    a question that differs up to case from each of the 50 entries of a full
    history gives the new item followed by those entries without the last,
    the oldest one: 50 entries again.  And 51 calls with questions that
    differ up to case, on an empty history, leave the 50 newest items, the
    newest first, the item of the first call being gone. *)
Theorem history_holds_fifty_at_most (env : Env) (item : Input.t)
    (st : State) :
  List.length (history (addToHistory env item st)) <= 50
  /\ (List.length (history st) = 50 ->
      Forall (fun h => differs (Input.question item) h = true) (history st) ->
      history (addToHistory env item st)
      = newItem env item :: removelast (history st)
      /\ List.length (history (addToHistory env item st)) = 50)
  /\ (forall (first : Env * Input.t) (calls : list (Env * Input.t)),
        List.length calls = 50 ->
        NoDup (map (fun call => toLowerCase (Input.question (snd call)))
                   (first :: calls)) ->
        history (addAll (first :: calls) (mkState [] None))
        = rev (map (fun call => newItem (fst call) (snd call)) calls)).
Proof.
  split; [apply addToHistory_length |]. split.
  - intros Hfull Hdistinct.
    rewrite addToHistory_history, (filter_differs_all _ _ Hdistinct).
    rewrite removelast_firstn_len, Hfull. cbn [Nat.pred].
    split; [reflexivity |]. cbn [List.length].
    rewrite length_firstn. lia.
  - intros first calls Hlen Hnodup.
    rewrite (addAll_distinct (first :: calls) Hnodup).
    cbn [map rev]. rewrite firstn_app.
    rewrite length_rev, length_map, Hlen, Nat.sub_diag, firstn_O, app_nil_r.
    apply firstn_all2.
    rewrite length_rev, length_map. lia.
Qed.

(** Hydration by cases.  Without a stored item, with the empty string, or
    with a string the parser rejects, the history after the mount effect is
    the empty array; a stored string that parses gives the parsed value, so
    a stored array gives that array. *)
Lemma hydrate_falls_back_to_empty (stored : option string) :
  (stored = None \/ stored = Some EmptyString
   \/ (exists s, stored = Some s /\ JSON_parse s = None) ->
   hydrate stored = JArr [])
  /\ (forall s v,
        stored = Some s -> s <> EmptyString -> JSON_parse s = Some v ->
        hydrate stored = v)
  /\ (forall s items,
        stored = Some s -> s <> EmptyString ->
        JSON_parse s = Some (JArr items) ->
        hydrate stored = JArr items).
Proof.
  assert (Hparsed : forall s v,
             stored = Some s -> s <> EmptyString -> JSON_parse s = Some v ->
             hydrate stored = v).
  { intros s v -> Hs Hv. unfold hydrate.
    destruct (String.eqb_spec s EmptyString) as [| _]; [contradiction |].
    now rewrite Hv. }
  split; [| split; [exact Hparsed | intros s items; apply Hparsed]].
  intros [-> | [-> | (s & -> & Hs)]]; try reflexivity.
  unfold hydrate. rewrite Hs. now destruct (String.eqb s EmptyString).
Qed.

End HistoryFacts.

(** ** ExportButton: reading back what was written *)

Section ReaderFacts.
Import ExportButton CsvReader.
Local Open Scope string_scope.

Lemma readQuoted_doubleQuotes (s : string) :
  readQuoted (doubleQuotes s ++ str1 dquote) = Some s.
Proof.
  induction s as [| c s IH]; [reflexivity |].
  cbn [doubleQuotes]. destruct (Ascii.eqb_spec c dquote) as [-> | Hc].
  - cbn. now rewrite IH.
  - cbn [append readQuoted]. apply Ascii.eqb_neq in Hc. now rewrite Hc, IH.
Qed.

Lemma includesChar_head (c d : ascii) (s : string) :
  includesChar (String d s) c = false ->
  Ascii.eqb d c = false /\ includesChar s c = false.
Proof. cbn. now intros [? ?]%orb_false_iff. Qed.

(** A string that needs no quoting is read back as it is. *)
Lemma parseField_plain (s : string) :
  needsQuoting s = false -> parseField s = Some s.
Proof.
  destruct s as [| c s]; [reflexivity |].
  unfold needsQuoting. intros [[_ Hq]%orb_false_iff _]%orb_false_iff.
  apply includesChar_head in Hq. cbn. now rewrite (proj1 Hq).
Qed.

Variable sep : ascii.
Hypothesis sep_not_dquote : Ascii.eqb sep dquote = false.

Lemma dquote_not_sep : Ascii.eqb dquote sep = false.
Proof. now rewrite Ascii.eqb_sym. Qed.

Lemma sealed_app (q : bool) (a b : string) :
  sealed sep q a = true -> sealed sep false b = true ->
  sealed sep q (a ++ b) = true.
Proof.
  revert q. induction a as [| c a IH]; intros q Ha Hb.
  - cbn in *. now destruct q.
  - cbn in *. destruct (Ascii.eqb c dquote); [now apply IH |].
    destruct (Ascii.eqb c sep); [| now apply IH].
    apply andb_true_iff in Ha. destruct Ha as [-> Ha]. now apply IH.
Qed.

Lemma sealed_doubleQuotes (s : string) :
  sealed sep true (doubleQuotes s ++ str1 dquote) = true.
Proof.
  induction s as [| c s IH]; [reflexivity |].
  cbn [doubleQuotes]. destruct (Ascii.eqb_spec c dquote) as [-> | Hc].
  - cbn. exact IH.
  - cbn [append sealed]. apply Ascii.eqb_neq in Hc. rewrite Hc.
    now destruct (Ascii.eqb c sep).
Qed.

Lemma sealed_without (s : string) :
  includesChar s dquote = false -> includesChar s sep = false ->
  sealed sep false s = true.
Proof.
  induction s as [| c s IH]; [reflexivity |].
  intros [Hq Hqs]%includesChar_head [Hs Hss]%includesChar_head.
  cbn. rewrite Hq, Hs. now apply IH.
Qed.

(** A sealed piece in front of a separator is split off whole. *)
Lemma splitOutside_piece (q : bool) (p rest : string) :
  sealed sep q p = true ->
  splitOutside sep q (p ++ String sep rest) = p :: splitOutside sep false rest.
Proof.
  revert q. induction p as [| c p IH]; intros q Hp.
  - cbn in Hp. destruct q; [discriminate |].
    cbn. now rewrite Ascii.eqb_refl.
  - cbn in Hp. cbn [append splitOutside].
    destruct (Ascii.eqb_spec c dquote) as [-> | Hc].
    + rewrite dquote_not_sep. cbn [andb]. now rewrite (IH _ Hp).
    + destruct (Ascii.eqb c sep).
      * apply andb_true_iff in Hp. destruct Hp as [-> Hp].
        cbn [negb andb]. now rewrite (IH _ Hp).
      * cbn [andb]. now rewrite (IH _ Hp).
Qed.

Lemma splitOutside_last (q : bool) (p : string) :
  sealed sep q p = true -> splitOutside sep q p = [p].
Proof.
  revert q. induction p as [| c p IH]; intros q Hp; [reflexivity |].
  cbn in Hp. cbn [splitOutside].
  destruct (Ascii.eqb_spec c dquote) as [-> | Hc].
  - rewrite dquote_not_sep. cbn [andb]. now rewrite (IH _ Hp).
  - destruct (Ascii.eqb c sep).
    + apply andb_true_iff in Hp. destruct Hp as [-> Hp].
      cbn [negb andb]. now rewrite (IH _ Hp).
    + cbn [andb]. now rewrite (IH _ Hp).
Qed.

(** Sealed pieces joined by the separator split into the same pieces. *)
Lemma splitOutside_join (pieces : list string) :
  pieces <> [] ->
  Forall (fun p => sealed sep false p = true) pieces ->
  splitOutside sep false (join (str1 sep) pieces) = pieces.
Proof.
  intros Hne Hall. induction Hall as [| p pieces Hp Hall IH]; [contradiction |].
  destruct pieces as [| p' pieces].
  - cbn. now apply splitOutside_last.
  - change (join (str1 sep) (p :: p' :: pieces))
      with (p ++ String sep (join (str1 sep) (p' :: pieces))).
    rewrite (splitOutside_piece _ _ _ Hp). f_equal. now apply IH.
Qed.

(** Joining sealed pieces by a string that is sealed gives a sealed
    string. *)
Lemma sealed_join (glue : string) (pieces : list string) :
  sealed sep false glue = true ->
  Forall (fun p => sealed sep false p = true) pieces ->
  sealed sep false (join glue pieces) = true.
Proof.
  intros Hglue Hall. induction Hall as [| p pieces Hp Hall IH]; [reflexivity |].
  destruct pieces as [| p' pieces]; [exact Hp |].
  change (join glue (p :: p' :: pieces))
    with (p ++ glue ++ join glue (p' :: pieces)).
  apply sealed_app; [exact Hp |]. now apply sealed_app.
Qed.

End ReaderFacts.

(** ** ExportButton: CSV *)

Section CsvFacts.
Context {host : Host}.
Import ExportButton CsvReader.
Local Open Scope string_scope.

Lemma get_In (row : Row) (key : string) (v : value) :
  get row key = Some v -> exists k, In (k, v) row.
Proof.
  induction row as [| [k w] row IH]; cbn; [discriminate |].
  destruct (String.eqb k key).
  - intros [= ->]. exists k. now left.
  - intros Hv. destruct (IH Hv) as [k' Hk']. exists k'. now right.
Qed.

Lemma plainNumbers_get (data : list Row) (row : Row) (key : string)
    (n : number) :
  plainNumbers data = true -> In row data -> get row key = Some (VNum n) ->
  needsQuoting (numToString n) = false.
Proof.
  unfold plainNumbers. rewrite forallb_forall. intros Hdata Hrow Hn.
  specialize (Hdata row Hrow). rewrite forallb_forall in Hdata.
  destruct (get_In row key _ Hn) as [k Hk].
  specialize (Hdata _ Hk). cbn in Hdata. now apply negb_true_iff in Hdata.
Qed.

Lemma csvCell_specCell (val : option value) :
  plainCell val -> csvCell val = specCell val.
Proof.
  intros Hplain. destruct val as [[| n | s] |]; try reflexivity.
  unfold specCell, csvCell. cbn. now rewrite (Hplain n eq_refl).
Qed.

Lemma plain_sealed (sep : ascii) (s : string) :
  sep = comma \/ sep = newline -> needsQuoting s = false ->
  sealed sep false s = true.
Proof.
  unfold needsQuoting.
  intros Hsep [[Hc Hq]%orb_false_iff Hn]%orb_false_iff.
  apply sealed_without; [exact Hq |]. now destruct Hsep as [-> | ->].
Qed.

Lemma csvCell_sealed (sep : ascii) (val : option value) :
  sep = comma \/ sep = newline -> plainCell val ->
  sealed sep false (csvCell val) = true.
Proof.
  intros Hsep Hplain.
  assert (Hdq : Ascii.eqb sep dquote = false) by now destruct Hsep as [-> | ->].
  destruct val as [[| n | s] |]; try reflexivity.
  - apply plain_sealed; [exact Hsep | now apply Hplain].
  - cbn [csvCell]. destruct (needsQuoting s) eqn:Hs.
    + cbn. now apply sealed_doubleQuotes.
    + now apply plain_sealed.
Qed.

Lemma parseField_csvCell (val : option value) :
  plainCell val -> parseField (csvCell val) = Some (cellText val).
Proof.
  intros Hplain. destruct val as [[| n | s] |]; try reflexivity.
  - apply parseField_plain. now apply Hplain.
  - cbn [csvCell]. unfold cellText. cbn [isNullish String_].
    destruct (needsQuoting s) eqn:Hs.
    + cbn. apply readQuoted_doubleQuotes.
    + now apply parseField_plain.
Qed.

Lemma allSome_map {A B : Type} (f : A -> option B) (g : A -> B)
    (l : list A) :
  Forall (fun x => f x = Some (g x)) l -> allSome (map f l) = Some (map g l).
Proof.
  induction 1 as [| x l Hx _ IH]; [reflexivity |].
  cbn. now rewrite Hx, IH.
Qed.

Lemma csvLine_sealed (row : Row) (columns : list Column) :
  (forall key, plainCell (get row key)) ->
  sealed newline false (csvLine row columns) = true.
Proof.
  intros Hplain. unfold csvLine. apply sealed_join; [reflexivity |].
  apply Forall_forall. intros cell Hcell.
  apply in_map_iff in Hcell. destruct Hcell as (h & <- & _).
  apply csvCell_sealed; [now right | apply Hplain].
Qed.

Lemma csvLine_read (row : Row) (columns : list Column) :
  columns <> [] -> (forall key, plainCell (get row key)) ->
  allSome (map parseField (splitOutside comma false (csvLine row columns)))
  = Some (map (fun col => cellText (get row (name col))) columns).
Proof.
  intros Hne Hplain. unfold csvLine.
  rewrite (splitOutside_join comma eq_refl).
  - rewrite !map_map. apply allSome_map, Forall_forall.
    intros col _. apply parseField_csvCell, Hplain.
  - destruct columns; [contradiction | discriminate].
  - apply Forall_forall. intros cell Hcell.
    apply in_map_iff in Hcell. destruct Hcell as (h & <- & _).
    apply csvCell_sealed; [now left | apply Hplain].
Qed.

Lemma header_sealed (sep : ascii) (columns : list Column) :
  sep = comma \/ sep = newline -> plainNames columns = true ->
  Forall (fun p => sealed sep false p = true) (map name columns).
Proof.
  intros Hsep Hnames. apply Forall_forall. intros h Hh.
  apply in_map_iff in Hh. destruct Hh as (col & <- & Hcol).
  unfold plainNames in Hnames. rewrite forallb_forall in Hnames.
  apply plain_sealed; [exact Hsep |].
  now apply negb_true_iff, Hnames.
Qed.

Lemma header_read (columns : list Column) :
  columns <> [] -> plainNames columns = true ->
  allSome (map parseField
             (splitOutside comma false (join "," (map name columns))))
  = Some (map name columns).
Proof.
  intros Hne Hnames.
  rewrite (splitOutside_join comma eq_refl).
  - rewrite <- (map_id (map name columns)) at 2.
    apply allSome_map, Forall_forall. intros h Hh.
    apply in_map_iff in Hh. destruct Hh as (col & <- & Hcol).
    unfold plainNames in Hnames. rewrite forallb_forall in Hnames.
    now apply parseField_plain, negb_true_iff, Hnames.
  - destruct columns; [contradiction | discriminate].
  - apply header_sealed; [now left | exact Hnames].
Qed.

End CsvFacts.

Section CsvExport.
Context {host : Host}.
Import ExportButton CsvReader.
Local Open Scope string_scope.

Lemma csvContent_lines (data : list Row) (columns : list Column) :
  csvContent data columns
  = join (str1 newline)
      (join "," (map name columns)
       :: map (fun row => csvLine row columns) data)%list.
Proof. reflexivity. Qed.

(** C6.  When the numbers of the rows print without comma, double quote and
    line feed, the CSV text is the names of the columns joined by commas,
    then one line per row, the lines joined by line feeds; a line joins by
    commas, column by column, nothing for null and undefined and otherwise
    the string form of the value, in double quotes with the inner double
    quotes doubled when it includes a comma, a double quote or a line feed.
    Read as a CSV field, the cell of a string gives the string back, as for
    the value [Sample.acme]; and when there is a column and the names of
    the columns need no quoting, reading the whole text gives the names and
    then, row by row, the texts of the cells. *)
Theorem csv_export_quotes_and_reads_back (data : list Row)
    (columns : list Column) (file : string) :
  plainNumbers data = true ->
  content (exportCSV data columns file)
  = join (str1 newline)
      (join "," (map name columns)
       :: map (fun row =>
                 join "," (map (fun col => specCell (get row (name col)))
                               columns))
              data)%list
  /\ (forall s, parseField (csvCell (Some (VStr s))) = Some s)
  /\ csvCell (Some (VStr Sample.acme))
     = str1 dquote ++ "Acme, " ++ str1 dquote ++ str1 dquote ++ "Inc."
       ++ str1 dquote ++ str1 dquote ++ str1 dquote
  /\ parseField (csvCell (Some (VStr Sample.acme))) = Some Sample.acme
  /\ (columns <> [] -> plainNames columns = true ->
      parseCSV (content (exportCSV data columns file))
      = Some (map name columns
              :: map (fun row =>
                        map (fun col => cellText (get row (name col))) columns)
                     data)%list).
Proof.
  intros Hnumbers. cbn [exportCSV content].
  assert (Hcells : forall row, In row data ->
                               forall key, plainCell (get row key)).
  { intros row Hrow key n Hn. exact (plainNumbers_get data row key n
                                       Hnumbers Hrow Hn). }
  split.
  { rewrite csvContent_lines. do 2 f_equal.
    apply map_ext_in. intros row Hrow. unfold csvLine. rewrite map_map.
    f_equal. apply map_ext. intros col.
    apply csvCell_specCell, Hcells, Hrow. }
  split; [intros s; now apply parseField_csvCell |].
  split; [reflexivity |]. split; [reflexivity |].
  intros Hne Hnames. unfold parseCSV. rewrite csvContent_lines.
  rewrite (splitOutside_join newline eq_refl).
  - cbn [map allSome]. rewrite (header_read columns Hne Hnames).
    cbn [option_map].
    rewrite map_map.
    rewrite (allSome_map _
               (fun row => map (fun col => cellText (get row (name col)))
                               columns)).
    + reflexivity.
    + apply Forall_forall. intros row Hrow.
      apply csvLine_read; [exact Hne | now apply Hcells].
  - discriminate.
  - constructor.
    + apply sealed_join; [reflexivity |].
      apply header_sealed; [now right | exact Hnames].
    + apply Forall_forall. intros line Hline.
      apply in_map_iff in Hline. destruct Hline as (row & <- & Hrow).
      apply csvLine_sealed. now apply Hcells.
Qed.

End CsvExport.

(** The statement of C6 at two rows of a company table, one of them with
    the value [Sample.acme]. *)
Lemma csv_export_quotes_and_reads_back_witness :
  CsvReader.parseCSV
    (ExportButton.content
       (ExportButton.exportCSV (host := TestHost.host) Sample.companyRows
          Sample.company "results"))
  = Some [["company"; "revenue"]; [Sample.acme; "100"];
          [EmptyString; EmptyString]]
  /\ ExportButton.content
       (ExportButton.exportCSV (host := TestHost.host) Sample.companyRows
          Sample.company "results")
     = ("company,revenue" ++ str1 newline
        ++ str1 dquote ++ "Acme, " ++ str1 dquote ++ str1 dquote ++ "Inc."
        ++ str1 dquote ++ str1 dquote ++ str1 dquote ++ ",100"
        ++ str1 newline ++ ",")%string.
Proof.
  pose proof (csv_export_quotes_and_reads_back (host := TestHost.host)
                Sample.companyRows Sample.company "results" eq_refl) as H.
  split.
  - exact (proj2 (proj2 (proj2 (proj2 H))) ltac:(discriminate) eq_refl).
  - exact (proj1 H).
Defined.

(** ** ExportButton: JSON *)

Section IncludesFacts.
Local Open Scope string_scope.

Lemma append_assoc (a b c : string) : (a ++ b) ++ c = a ++ (b ++ c).
Proof. induction a as [| d a IH]; cbn; [reflexivity | now rewrite IH]. Qed.

Lemma startsWith_app (t a b : string) :
  startsWith a t = true -> startsWith (a ++ b) t = true.
Proof.
  revert a. induction t as [| c t IH]; intros a; [reflexivity |].
  destruct a as [| d a]; cbn; [discriminate |].
  intros [-> Ht]%andb_true_iff. now apply IH.
Qed.

Lemma startsWith_self (t b : string) : startsWith (t ++ b) t = true.
Proof.
  induction t as [| c t IH]; cbn; [reflexivity |].
  now rewrite Ascii.eqb_refl.
Qed.

Lemma includes_unfold (s t : string) :
  includes s t
  = startsWith s t
    || match s with
       | EmptyString => false
       | String _ s' => includes s' t
       end.
Proof. now destruct s. Qed.

Lemma includes_app_l (a b t : string) :
  includes a t = true -> includes (a ++ b) t = true.
Proof.
  induction a as [| c a IH]; rewrite includes_unfold.
  - rewrite orb_false_r. intros Ht. rewrite includes_unfold.
    now rewrite (startsWith_app t EmptyString b Ht).
  - intros [Hp | Hi]%orb_true_iff; rewrite includes_unfold.
    + now rewrite (startsWith_app t (String c a) b Hp).
    + cbn [append]. rewrite (IH Hi). apply orb_true_r.
Qed.

Lemma includes_app_r (a b t : string) :
  includes b t = true -> includes (a ++ b) t = true.
Proof.
  intros Hb. induction a as [| c a IH]; [exact Hb |].
  rewrite includes_unfold. cbn [append]. rewrite IH. apply orb_true_r.
Qed.

Lemma includes_self (t b : string) : includes (t ++ b) t = true.
Proof. rewrite includes_unfold. now rewrite startsWith_self. Qed.

Lemma includes_join (sep t : string) (parts : list string) (p : string) :
  In p parts -> includes p t = true -> includes (join sep parts) t = true.
Proof.
  intros Hin Hp. induction parts as [| q parts IH]; [contradiction |].
  destruct parts as [| q' parts].
  - destruct Hin as [-> | []]. exact Hp.
  - change (join sep (q :: q' :: parts))
      with (q ++ sep ++ join sep (q' :: parts)).
    destruct Hin as [-> | Hin].
    + now apply includes_app_l.
    + now apply includes_app_r, includes_app_r, IH.
Qed.

End IncludesFacts.

Section JsonExport.
Context {host : Host}.
Import ExportButton.
Local Open Scope string_scope.

(** What [serialize] prints around the parts of an array or an object when
    there is an indentation. *)
Lemma serialize_array (indent : string) (items : list json) :
  items <> [] ->
  serialize "  " indent (JArr items)
  = "[" ++ str1 newline ++ (indent ++ "  ")
    ++ join ("," ++ str1 newline ++ (indent ++ "  "))
            (map (serialize "  " (indent ++ "  ")) items)
    ++ str1 newline ++ indent ++ "]".
Proof. destruct items; [contradiction | reflexivity]. Qed.

Lemma serialize_object (indent : string) (members : list (string * json)) :
  members <> [] ->
  serialize "  " indent (JObj members)
  = "{" ++ str1 newline ++ (indent ++ "  ")
    ++ join ("," ++ str1 newline ++ (indent ++ "  "))
            (map (fun kv : string * json =>
                    quoteJSONString (fst kv) ++ ":" ++ " "
                    ++ serialize "  " (indent ++ "  ") (snd kv))
                 members)
    ++ str1 newline ++ indent ++ "}".
Proof. destruct members; [contradiction | reflexivity]. Qed.

(** Every key of every row is printed as a member name. *)
Lemma jsonContent_prints_key (data : list Row) (row : Row) (k : string)
    (v : value) :
  In row data -> In (k, v) row ->
  includes (jsonContent data) (quoteJSONString k ++ ": ") = true.
Proof.
  intros Hrow Hkv. unfold jsonContent, JSON_stringify.
  change (takeStr 2 "          ") with "  ".
  rewrite serialize_array by (destruct data; [contradiction | discriminate]).
  apply includes_app_r, includes_app_r, includes_app_r, includes_app_l.
  apply (includes_join _ _ _
           (serialize "  " (EmptyString ++ "  ") (jsonOfRow row))).
  { apply in_map_iff. exists (jsonOfRow row). split; [reflexivity |].
    now apply in_map. }
  unfold jsonOfRow.
  rewrite serialize_object by (destruct row; [contradiction | discriminate]).
  apply includes_app_r, includes_app_r, includes_app_r, includes_app_l.
  apply (includes_join _ _ _
           (quoteJSONString k ++ ":" ++ " "
            ++ serialize "  " ((EmptyString ++ "  ") ++ "  ") (jsonOfValue v))).
  { apply in_map_iff. exists (k, jsonOfValue v). split; [reflexivity |].
    apply in_map_iff. exists (k, v). now split. }
  replace (quoteJSONString k ++ ":" ++ " "
           ++ serialize "  " ((EmptyString ++ "  ") ++ "  ") (jsonOfValue v))
    with ((quoteJSONString k ++ ": ")
          ++ serialize "  " ((EmptyString ++ "  ") ++ "  ") (jsonOfValue v))
    by (now rewrite append_assoc).
  apply includes_self.
Qed.

Lemma jsonKeys_rows (data : list Row) :
  jsonKeys (JArr (map jsonOfRow data)) = flat_map (map fst) data.
Proof.
  cbn [jsonKeys]. induction data as [| row data IH]; [reflexivity |].
  cbn [map flat_map]. rewrite IH. f_equal.
  unfold jsonOfRow. cbn [jsonKeys].
  induction row as [| [k v] row IHrow]; [reflexivity |].
  cbn [map flat_map fst snd]. rewrite IHrow. now destruct v.
Qed.

(** C8, for the export as it is.  The JSON text is the serialization, with
    an indentation of two spaces, of the array of the row objects as they
    are; the column list has no part in it.  Every key of every row is
    printed as a member name, declared or not; the keys of the document
    are the keys of the rows, so that no key outside the column list
    appears when the rows hold declared keys only. *)
Theorem json_export_serializes_whole_rows (data : list Row)
    (columns : list Column) (file : string) :
  content (exportJSON data columns file)
  = JSON_stringify (JArr (map jsonOfRow data)) 2
  /\ content (exportJSON data columns file) = content (exportJSON data [] file)
  /\ (forall row k v,
        In row data -> In (k, v) row ->
        includes (content (exportJSON data columns file))
                 (quoteJSONString k ++ ": ") = true)
  /\ jsonKeys (JArr (map jsonOfRow data)) = flat_map (map fst) data
  /\ ((forall row k v,
          In row data -> In (k, v) row -> In k (map name columns)) ->
      Forall (fun k => In k (map name columns))
             (jsonKeys (JArr (map jsonOfRow data)))).
Proof.
  split; [reflexivity |]. split; [reflexivity |].
  split; [intros row k v; apply jsonContent_prints_key |].
  split; [apply jsonKeys_rows |].
  intros Hdeclared. rewrite jsonKeys_rows. apply Forall_forall.
  intros k Hk. apply in_flat_map in Hk. destruct Hk as (row & Hrow & Hk).
  apply in_map_iff in Hk. destruct Hk as ([k' v] & <- & Hkv).
  exact (Hdeclared row k' v Hrow Hkv).
Qed.

End JsonExport.

(** C8 as stated fails for a row with a key that is no declared column: the
    key [note] of the first company row is exported, the declared columns
    being [company] and [revenue]. *)
Lemma json_export_keeps_undeclared_key :
  ExportButton.content
    (ExportButton.exportJSON (host := TestHost.host) Sample.companyRows
       Sample.company "results")
  = ("[" ++ str1 newline
     ++ "  {" ++ str1 newline
     ++ "    " ++ quoteJSONString "company" ++ ": "
     ++ str1 dquote ++ "Acme, " ++ str1 backslash ++ str1 dquote ++ "Inc."
     ++ str1 backslash ++ str1 dquote ++ str1 dquote ++ "," ++ str1 newline
     ++ "    " ++ quoteJSONString "revenue" ++ ": 100," ++ str1 newline
     ++ "    " ++ quoteJSONString "note" ++ ": " ++ quoteJSONString "x"
     ++ str1 newline
     ++ "  }," ++ str1 newline
     ++ "  {" ++ str1 newline
     ++ "    " ++ quoteJSONString "company" ++ ": null" ++ str1 newline
     ++ "  }" ++ str1 newline ++ "]")%string
  /\ In "note" (jsonKeys (JArr (map jsonOfRow Sample.companyRows)))
  /\ existsb (String.eqb "note") (map name Sample.company) = false.
Proof.
  split; [vm_compute; reflexivity |].
  split; [cbn; tauto | reflexivity].
Qed.

(** ** QueryHistory: the examples of the specification *)

(** Adding [Show sales] and then [SHOW SALES] leaves one entry, with the
    figures of the second call and the time of the second call. *)
Example show_sales_twice :
  QueryHistory.history
    (addAll (host := TestHost.host)
       [(Sample.firstCall, Sample.showSales);
        (Sample.secondCall, Sample.showSalesAgain)]
       (QueryHistory.mkState [] None))
  = [QueryHistory.mkItem "1700000060000-9x2c1kq7b3d" "SHOW SALES"
       1700000060001 12 80 0.75].
Proof. vm_compute. reflexivity. Qed.

(** C9.  The code at a stored value that is JSON but no array: the text
    [null] parses without an exception, so the handler that resets the
    history to the empty array never runs and the history becomes [null],
    not the empty ledger; and so it is with every host and every stored
    text that parses: the history becomes the parsed value, whatever its
    shape. *)
Lemma hydrate_keeps_parsed_non_array :
  QueryHistory.hydrate (host := TestHost.host) (Some "null") = JNull
  /\ (QueryHistory.hydrate (host := TestHost.host) (Some "null") = JArr []
      -> False)
  /\ (forall (host : Host) (s : string) (v : json),
        s <> EmptyString -> JSON_parse s = Some v ->
        QueryHistory.hydrate (Some s) = v).
Proof.
  split; [reflexivity |].
  split; [discriminate |].
  intros host s v Hs Hv. unfold QueryHistory.hydrate.
  destruct (String.eqb_spec s EmptyString) as [| _]; [contradiction |].
  now rewrite Hv.
Qed.

(** Hydration without a stored item, from text that is no JSON, and from a
    stored array. *)
Example hydrate_samples :
  QueryHistory.hydrate (host := TestHost.host) None = JArr []
  /\ QueryHistory.hydrate (host := TestHost.host) (Some EmptyString) = JArr []
  /\ QueryHistory.hydrate (host := TestHost.host) (Some "{oops") = JArr []
  /\ QueryHistory.hydrate (host := TestHost.host) (Some Sample.storedArray)
     = JArr [JStr "a"].
Proof. repeat split. Qed.

(* ================================================================== *)
(** * Further properties *)
(* ================================================================== *)

(** ** DataTable: the sort header *)

Section HeaderFacts.
Context {host : Host}.
Import DataTable.

(** X1.  A click on a header keeps column and direction set together.  On
    another column than the sorted one it sorts that column ascending; on
    the sorted column it goes from ascending to descending and from
    descending to no sort at all, so that three clicks on one header of an
    unsorted table leave the rows in filtered order again. *)
Theorem header_clicks_cycle (st : option string * option Direction)
    (colName : string) (filtered : list Row) :
  sortStateOk st = true ->
  sortStateOk (handleSort st colName) = true
  /\ (fst st <> Some colName ->
      handleSort st colName = (Some colName, Some asc))
  /\ handleSort (Some colName, Some asc) colName = (Some colName, Some desc)
  /\ handleSort (Some colName, Some desc) colName = (None, None)
  /\ (let st3 :=
        handleSort (handleSort (handleSort (None, None) colName) colName)
          colName in
      st3 = (None, None) /\ sortedData filtered (fst st3) (snd st3) = filtered).
Proof.
  intros Hok.
  assert (Hsame : String.eqb colName colName = true) by apply String.eqb_refl.
  repeat split.
  - destruct st as [[c |] [d |]]; try discriminate; cbn; [| reflexivity].
    destruct (String.eqb c colName), d; reflexivity.
  - destruct st as [[c |] [d |]]; try discriminate; cbn; [| reflexivity].
    intros Hother. destruct (String.eqb_spec c colName) as [-> | _];
      [now destruct Hother | reflexivity].
  - cbn. now rewrite Hsame.
  - cbn. now rewrite Hsame.
  - cbn. rewrite Hsame. cbn. now rewrite Hsame.
  - cbn. rewrite Hsame. cbn. now rewrite Hsame.
Qed.

End HeaderFacts.

(** The statement of X1 at a table sorted ascending by [a], the header [b]
    clicked. *)
Lemma header_clicks_cycle_witness :
  sortStateOk
    (DataTable.handleSort (Some "a", Some DataTable.asc) "b") = true
  /\ DataTable.handleSort (Some "a", Some DataTable.asc) "b"
     = (Some "b", Some DataTable.asc).
Proof.
  pose proof (header_clicks_cycle (host := TestHost.host)
                (Some "a", Some DataTable.asc) "b" [] eq_refl) as H.
  exact (conj (proj1 H) (proj1 (proj2 H) ltac:(discriminate))).
Defined.

(** ** DataTable: the filter *)

Lemma filter_twice {A : Type} (f : A -> bool) (l : list A) :
  filter f (filter f l) = filter f l.
Proof.
  induction l as [| x l IH]; [reflexivity |].
  cbn. destruct (f x) eqn:Hx; [| exact IH]. cbn. now rewrite Hx, IH.
Qed.

Lemma filter_length_le {A : Type} (f : A -> bool) (l : list A) :
  List.length (filter f l) <= List.length l.
Proof.
  induction l as [| x l IH]; [reflexivity |].
  cbn. destruct (f x); cbn; lia.
Qed.

Section FilterMoreFacts.
Context {host : Host}.
Import DataTable.

(** X2.  Filtering again by the same term changes nothing; the filter never
    adds a row: the rows it keeps are rows of the data, no more of them
    than the data has. *)
Theorem filter_is_idempotent (data : list Row) (columns : list Column)
    (searchTerm : string) :
  filteredData (filteredData data columns searchTerm) columns searchTerm
  = filteredData data columns searchTerm
  /\ (forall row,
        In row (filteredData data columns searchTerm) -> In row data)
  /\ List.length (filteredData data columns searchTerm) <= List.length data.
Proof.
  unfold filteredData.
  destruct (String.eqb (trim searchTerm) EmptyString).
  - repeat split; [tauto | lia].
  - split; [apply filter_twice |].
    split; [| apply filter_length_le].
    intros row Hrow. now apply filter_In in Hrow.
Qed.

(** X3.  Under a term that is not blank a row is kept only for a value: a
    row whose cells under the declared columns are all null or undefined is
    dropped, whatever the term, and so is every row when no column is
    declared. *)
Theorem filter_drops_rows_without_values (data : list Row)
    (columns : list Column) (searchTerm : string) (row : Row) :
  allWhiteSpace searchTerm = false ->
  (forall col, In col columns -> isNullish (get row (name col)) = true) ->
  ~ In row (filteredData data columns searchTerm).
Proof.
  intros Hterm Hnull Hrow. unfold filteredData in Hrow.
  rewrite trim_empty, Hterm in Hrow. apply filter_In in Hrow.
  destruct Hrow as [_ Hmatch]. rewrite filteredData_predicate in Hmatch.
  unfold matchesTerm in Hmatch.
  apply existsb_exists in Hmatch. destruct Hmatch as (col & Hcol & Hval).
  specialize (Hnull col Hcol).
  destruct (get row (name col)) as [[| n | s] |]; discriminate.
Qed.

End FilterMoreFacts.

(** The statement of X3 at the company rows and the term [acme]: the row
    with null under [company] and nothing under [revenue] is dropped. *)
Lemma filter_drops_rows_without_values_witness :
  (In Sample2.emptyRow
      (DataTable.filteredData (host := TestHost.host) Sample.companyRows
         Sample.company "acme") -> False)
  /\ DataTable.filteredData (host := TestHost.host) Sample.companyRows
       Sample.company "acme"
     = firstn 1 Sample.companyRows.
Proof.
  split; [| vm_compute; reflexivity].
  apply (filter_drops_rows_without_values (host := TestHost.host)
           Sample.companyRows Sample.company "acme" Sample2.emptyRow eq_refl).
  intros col [<- | [<- | []]]; reflexivity.
Defined.

(** ** DataTable: the pager *)

Section PagerFacts.
Context {host : Host}.
Import DataTable Pager.

(** X4.  A page from 0 to the last of the [totalPages] pages shows rows:
    25 of them, except that the last page shows what remains, at least one
    row.  The Previous and the Next button lead from such a page to such a
    page. *)
Theorem page_in_range_shows_rows (filtered : list Row)
    (sortColumn : option string) (sortDirection : option Direction)
    (page : Z) :
  (0 <= page < totalPages filtered)%Z ->
  let shown :=
    paginatedData (sortedData filtered sortColumn sortDirection) page in
  1 <= List.length shown <= 25
  /\ ((page < totalPages filtered - 1)%Z -> List.length shown = 25)
  /\ ((page = totalPages filtered - 1)%Z ->
      Z.of_nat (List.length shown)
      = (Z.of_nat (List.length filtered) - 25 * page)%Z)
  /\ (0 <= previousPage page < totalPages filtered)%Z
  /\ (0 <= nextPage (totalPages filtered) page < totalPages filtered)%Z.
Proof.
  intros Hpage shown.
  pose proof (Permutation_length
                (sortedData_perm filtered sortColumn sortDirection)) as Hlen.
  pose proof (totalPages_div filtered) as Htotal.
  set (sorted := sortedData filtered sortColumn sortDirection) in *.
  set (n := Z.of_nat (List.length filtered)) in *.
  assert (Hn : (0 <= n)%Z) by (subst n; lia).
  pose proof (Z.div_mod (n + 24) 25 ltac:(lia)) as Hdiv.
  pose proof (Z.mod_pos_bound (n + 24) 25 ltac:(lia)) as Hmod.
  assert (Hshown : List.length shown
                   = Nat.min 25 (List.length sorted - Z.to_nat page * 25)).
  { subst shown. rewrite <- (Z2Nat.id page) by lia.
    rewrite paginatedData_window, Nat2Z.id.
    now rewrite length_firstn, length_skipn. }
  unfold previousPage, nextPage. rewrite Hshown, Hlen.
  repeat split; try lia.
Qed.

End PagerFacts.

(** The statement of X4 at thirty rows and the second page, the last one,
    with five rows. *)
Lemma page_in_range_shows_rows_witness :
  1 <= List.length
         (DataTable.paginatedData
            (DataTable.sortedData (host := TestHost.host) Sample2.thirtyRows
               None None) 1)
    <= 25
  /\ List.length
       (DataTable.paginatedData
          (DataTable.sortedData (host := TestHost.host) Sample2.thirtyRows
             None None) 1)
     = 5.
Proof.
  pose proof (page_in_range_shows_rows (host := TestHost.host)
                Sample2.thirtyRows None None 1
                ltac:(vm_compute; split; [discriminate | reflexivity])) as H.
  exact (conj (proj1 H) eq_refl).
Defined.

(** ** SummaryStats: labels *)

Section LabelFacts.
Import SummaryStats.

Lemma upperChar_twice (c : ascii) : upperChar (upperChar c) = upperChar c.
Proof. destruct c as [[] [] [] [] [] [] [] []]; reflexivity. Qed.

Lemma isWordChar_upperChar (c : ascii) :
  isWordChar (upperChar c) = isWordChar c.
Proof. destruct c as [[] [] [] [] [] [] [] []]; reflexivity. Qed.

Lemma upperChar_underscore (c : ascii) :
  Ascii.eqb c "_" = false -> Ascii.eqb (upperChar c) "_" = false.
Proof.
  destruct c as [[] [] [] [] [] [] [] []]; intros H; exact H || reflexivity.
Qed.

Lemma underscoresToSpaces_free (s : string) :
  includesChar (underscoresToSpaces s) "_" = false.
Proof.
  induction s as [| c s IH]; [reflexivity |].
  cbn [underscoresToSpaces includesChar]. rewrite IH, orb_false_r.
  destruct (Ascii.eqb c "_") eqn:Hc; [reflexivity | exact Hc].
Qed.

Lemma underscoresToSpaces_none (s : string) :
  includesChar s "_" = false -> underscoresToSpaces s = s.
Proof.
  induction s as [| c s IH]; [reflexivity |].
  intros [Hc Hs]%includesChar_head. cbn [underscoresToSpaces].
  now rewrite Hc, IH.
Qed.

Lemma capitalizeWords_free (afterWord : bool) (s : string) :
  includesChar s "_" = false ->
  includesChar (capitalizeWords afterWord s) "_" = false.
Proof.
  revert afterWord. induction s as [| c s IH]; intros afterWord; [reflexivity |].
  intros [Hc Hs]%includesChar_head.
  cbn [capitalizeWords includesChar]. rewrite (IH _ Hs), orb_false_r.
  destruct (isWordChar c && negb afterWord).
  - exact (upperChar_underscore c Hc).
  - exact Hc.
Qed.

Lemma capitalizeWords_twice (afterWord : bool) (s : string) :
  capitalizeWords afterWord (capitalizeWords afterWord s)
  = capitalizeWords afterWord s.
Proof.
  revert afterWord. induction s as [| c s IH]; intros afterWord; [reflexivity |].
  cbn [capitalizeWords]. destruct (isWordChar c && negb afterWord) eqn:Hcap.
  - rewrite isWordChar_upperChar, Hcap, upperChar_twice. now rewrite IH.
  - rewrite Hcap. now rewrite IH.
Qed.

Lemma capitalizeWords_length (afterWord : bool) (s : string) :
  String.length (capitalizeWords afterWord s) = String.length s.
Proof.
  revert afterWord. induction s as [| c s IH]; intros afterWord; [reflexivity |].
  cbn. now rewrite IH.
Qed.

Lemma underscoresToSpaces_length (s : string) :
  String.length (underscoresToSpaces s) = String.length s.
Proof. induction s as [| c s IH]; [reflexivity |]. cbn. now rewrite IH. Qed.

(** X5.  The label of a column name has the length of the name and no
    underscore, and formatting a label again leaves it as it is. *)
Theorem label_is_stable (name : string) :
  String.length (formatLabel name) = String.length name
  /\ includesChar (formatLabel name) "_" = false
  /\ formatLabel (formatLabel name) = formatLabel name.
Proof.
  unfold formatLabel. split; [| split].
  - now rewrite capitalizeWords_length, underscoresToSpaces_length.
  - apply capitalizeWords_free, underscoresToSpaces_free.
  - rewrite (underscoresToSpaces_none
               (capitalizeWords false (underscoresToSpaces name)))
      by apply capitalizeWords_free, underscoresToSpaces_free.
    apply capitalizeWords_twice.
Qed.

End LabelFacts.

(** ** SummaryStats: rows without numbers *)

Section NumbersFacts.
Context {host : Host}.
Import SummaryStats.

Lemma numbersOf_filter (data : list Row) (col : Column) :
  numbersOf data col = numbersOf (filter (hasNumber col) data) col.
Proof.
  unfold numbersOf. induction data as [| row data IH]; [reflexivity |].
  cbn [flat_map filter]. unfold hasNumber at 1.
  destruct (get row (name col)) as [[| n | s] |] eqn:Hrow; cbn [app];
    try exact IH.
  cbn [flat_map]. now rewrite Hrow, IH.
Qed.

Lemma numbersOf_length (data : list Row) (col : Column) :
  List.length (numbersOf data col)
  = List.length (filter (hasNumber col) data).
Proof.
  unfold numbersOf. induction data as [| row data IH]; [reflexivity |].
  cbn [flat_map filter]. unfold hasNumber at 1.
  destruct (get row (name col)) as [[| n | s] |]; cbn; now rewrite ?IH.
Qed.

Lemma numbersOf_some (data : list Row) (col : Column) (row : Row) :
  In row data -> hasNumber col row = true ->
  Nat.ltb 0 (List.length (numbersOf data col)) = true.
Proof.
  intros Hrow Hnum. apply Nat.ltb_lt. rewrite numbersOf_length.
  assert (Hin : In row (filter (hasNumber col) data))
    by (apply filter_In; now split).
  destruct (filter (hasNumber col) data); [destruct Hin | cbn; lia].
Qed.

(** X6.  The cards of a measure column are computed from the rows that
    hold a number under it: rows with null, with text or without the key
    change neither the Total card nor the Avg card.  When a row holds a
    number, the Total card of the first measure column shows the sum of
    the numbers, added from 0 in row order, and under it that sum divided
    by the number of rows that hold a number; the Avg card of the second
    measure column shows that quotient for its column. *)
Theorem measure_cards_skip_rows_without_number (data : list Row)
    (measureCols : list Column) (col : Column) :
  let total := fold_left PrimFloat.add (numbersOf data col) 0%float in
  let mean :=
    PrimFloat.div total
      (numOfNat (List.length (filter (hasNumber col) data))) in
  (nth_error measureCols 0 = Some col ->
   totalCards data measureCols
   = totalCards (filter (hasNumber col) data) measureCols)
  /\ (nth_error measureCols 1 = Some col ->
      averageCards data measureCols
      = averageCards (filter (hasNumber col) data) measureCols)
  /\ List.length (numbersOf data col)
     = List.length (filter (hasNumber col) data)
  /\ (nth_error measureCols 0 = Some col ->
      (exists row, In row data /\ hasNumber col row = true) ->
      exists card,
        totalCards data measureCols = [card]
        /\ label card = ("Total " ++ formatLabel (name col))%string
        /\ value card = formatNumber total
        /\ subValue card = Some ("Avg: " ++ formatNumber mean)%string)
  /\ (nth_error measureCols 1 = Some col ->
      (exists row, In row data /\ hasNumber col row = true) ->
      exists card,
        averageCards data measureCols = [card]
        /\ label card = ("Avg " ++ formatLabel (name col))%string
        /\ value card = formatNumber mean).
Proof.
  intros total mean. subst total mean. rewrite <- numbersOf_length.
  split; [| split; [| split; [reflexivity | split]]].
  - intros Hcol. unfold totalCards. rewrite Hcol.
    now rewrite <- numbersOf_filter.
  - intros Hcol. unfold averageCards. rewrite Hcol.
    now rewrite <- numbersOf_filter.
  - intros Hcol (row & Hrow & Hnum). unfold totalCards.
    rewrite Hcol. cbn zeta. rewrite (numbersOf_some data col row Hrow Hnum).
    eexists. split; [reflexivity |]. repeat split.
  - intros Hcol (row & Hrow & Hnum). unfold averageCards.
    rewrite Hcol. cbn zeta. rewrite (numbersOf_some data col row Hrow Hnum).
    eexists. split; [reflexivity |]. repeat split.
Qed.

Lemma numbersOf_none (data : list Row) (col : Column) :
  (forall row, In row data -> hasNumber col row = false) ->
  numbersOf data col = [].
Proof.
  intros Hnone. rewrite numbersOf_filter.
  replace (filter (hasNumber col) data) with (@nil Row); [reflexivity |].
  symmetry. induction data as [| row data IH]; [reflexivity |].
  cbn. rewrite (Hnone row (or_introl eq_refl)).
  apply IH. intros r Hr. apply Hnone. now right.
Qed.

Lemma last_In {A : Type} (l : list A) (d : A) : l <> [] -> In (last l d) l.
Proof.
  induction l as [| x l IH]; [contradiction |]. intros _.
  destruct l as [| y l]; [now left |].
  right. apply IH. discriminate.
Qed.

(** X7.  When no row holds a number under a measure column, and so when
    there is no measure column, the summary of a table with rows and
    columns is the row-count card alone. *)
Theorem row_count_alone_without_numbers (data : list Row)
    (columns : list Column) :
  0 < List.length data -> 0 < List.length columns ->
  (forall row col,
      In row data -> In col (measureColumns columns) ->
      hasNumber col row = false) ->
  stats data columns = [rowCountCard data].
Proof.
  intros Hdata Hcolumns Hnone.
  rewrite (stats_cards data columns Hdata Hcolumns).
  set (mcols := measureColumns columns) in *.
  assert (Htotal : totalCards data mcols = []).
  { unfold totalCards. destruct (nth_error mcols 0) as [col |] eqn:Hcol;
      [| reflexivity].
    rewrite numbersOf_none; [reflexivity |].
    intros row Hrow. apply Hnone; [exact Hrow |].
    exact (nth_error_In mcols 0 Hcol). }
  assert (Haverage : averageCards data mcols = []).
  { unfold averageCards. destruct (nth_error mcols 1) as [col |] eqn:Hcol;
      [| reflexivity].
    rewrite numbersOf_none; [reflexivity |].
    intros row Hrow. apply Hnone; [exact Hrow |].
    exact (nth_error_In mcols 1 Hcol). }
  assert (Hchange : changeCards data mcols = []).
  { unfold changeCards. destruct (nth_error mcols 0) as [col |] eqn:Hcol;
      [| reflexivity].
    destruct (Nat.leb 2 (List.length data)); [| reflexivity].
    destruct data as [| row0 rest]; [reflexivity |].
    assert (Hlast : hasNumber col (last (row0 :: rest) []) = false).
    { apply Hnone; [apply last_In; discriminate |].
      exact (nth_error_In mcols 0 Hcol). }
    unfold hasNumber in Hlast.
    destruct (get (last (row0 :: rest) []) (name col)) as [[| l | s] |];
      try reflexivity. discriminate. }
  now rewrite Htotal, Haverage, Hchange.
Qed.

End NumbersFacts.

(** The statement of X7 at one row without a number under [revenue]. *)
Lemma row_count_alone_without_numbers_witness :
  SummaryStats.stats (host := TestHost.host) [Sample2.emptyRow] Sample.company
  = [SummaryStats.rowCountCard (host := TestHost.host) [Sample2.emptyRow]]
  /\ SummaryStats.measureColumns Sample.company
     = [mkColumn "revenue" "measure"].
Proof.
  split; [| reflexivity].
  apply (row_count_alone_without_numbers (host := TestHost.host)
           [Sample2.emptyRow] Sample.company);
    [cbn; lia | cbn; lia |].
  intros row col [<- | []] [<- | []]. reflexivity.
Defined.

(** ** ExportButton: the clipboard text *)

Section SplitFacts.
Import TsvReader.
Local Open Scope string_scope.

Variable sep : ascii.

Lemma includesChar_app (a b : string) (c : ascii) :
  includesChar (a ++ b) c = includesChar a c || includesChar b c.
Proof.
  induction a as [| d a IH]; [reflexivity |].
  cbn. now rewrite IH, orb_assoc.
Qed.

Lemma splitOn_piece (p rest : string) :
  includesChar p sep = false ->
  splitOn sep (p ++ String sep rest) = p :: splitOn sep rest.
Proof.
  induction p as [| c p IH]; intros Hp.
  - cbn. now rewrite Ascii.eqb_refl.
  - apply includesChar_head in Hp. destruct Hp as [Hc Hp].
    cbn [append splitOn]. now rewrite Hc, (IH Hp).
Qed.

Lemma splitOn_last (p : string) :
  includesChar p sep = false -> splitOn sep p = [p].
Proof.
  induction p as [| c p IH]; intros Hp; [reflexivity |].
  apply includesChar_head in Hp. destruct Hp as [Hc Hp].
  cbn [splitOn]. now rewrite Hc, (IH Hp).
Qed.

(** Pieces without the separator, joined by it, split into the same
    pieces. *)
Lemma splitOn_join (pieces : list string) :
  pieces <> [] ->
  Forall (fun p => includesChar p sep = false) pieces ->
  splitOn sep (join (str1 sep) pieces) = pieces.
Proof.
  intros Hne Hall. induction Hall as [| p pieces Hp Hall IH]; [contradiction |].
  destruct pieces as [| p' pieces].
  - cbn. now apply splitOn_last.
  - change (join (str1 sep) (p :: p' :: pieces))
      with (p ++ String sep (join (str1 sep) (p' :: pieces))).
    rewrite (splitOn_piece _ _ Hp). f_equal. now apply IH.
Qed.

Lemma includesChar_join (glue : string) (pieces : list string) (c : ascii) :
  includesChar glue c = false ->
  Forall (fun p => includesChar p c = false) pieces ->
  includesChar (join glue pieces) c = false.
Proof.
  intros Hglue Hall. induction Hall as [| p pieces Hp Hall IH]; [reflexivity |].
  destruct pieces as [| p' pieces]; [exact Hp |].
  change (join glue (p :: p' :: pieces))
    with (p ++ glue ++ join glue (p' :: pieces)).
  now rewrite !includesChar_app, Hp, Hglue, IH.
Qed.

End SplitFacts.

Section TsvFacts.
Context {host : Host}.
Import ExportButton TsvReader.
Local Open Scope string_scope.

Lemma tabFree_parts (s : string) :
  tabFree s = true ->
  includesChar s tab = false /\ includesChar s newline = false.
Proof.
  unfold tabFree. intros [Ht Hn]%andb_true_iff.
  now apply negb_true_iff in Ht, Hn.
Qed.

(** X8.  The text copied to the clipboard reads back as a table: when no
    column name and no cell holds a tab or a line feed and there is a
    column, splitting the text at line feeds and the lines at tabs gives
    the names of the columns and then, row by row, the string forms of the
    cells, nothing for null and undefined. *)
Theorem clipboard_text_reads_back (data : list Row) (columns : list Column) :
  tsvSafe data columns = true -> columns <> [] ->
  parseTSV (tsvContent data columns)
  = map name columns
    :: map (fun row => map (fun col => cellText (get row (name col))) columns)
         data.
Proof.
  intros Hsafe Hne. unfold tsvSafe in Hsafe.
  apply andb_true_iff in Hsafe. destruct Hsafe as [Hnames Hcells].
  rewrite forallb_forall in Hnames, Hcells.
  assert (Hheader : Forall (fun p => tabFree p = true) (map name columns)).
  { apply Forall_forall. intros h Hh. apply in_map_iff in Hh.
    destruct Hh as (col & <- & Hcol). now apply Hnames. }
  assert (Hline : forall row, In row data ->
            Forall (fun p => tabFree p = true)
                   (map (fun h => tsvCell (get row h)) (map name columns))).
  { intros row Hrow. specialize (Hcells row Hrow).
    rewrite forallb_forall in Hcells.
    apply Forall_forall. intros cell Hcell. rewrite map_map in Hcell.
    apply in_map_iff in Hcell. destruct Hcell as (col & <- & Hcol).
    now apply Hcells. }
  assert (Hjoin : forall cells,
            Forall (fun p => tabFree p = true) cells ->
            includesChar (join (str1 tab) cells) newline = false).
  { intros cells Hall. apply includesChar_join; [reflexivity |].
    apply Forall_forall. intros p Hp. rewrite Forall_forall in Hall.
    now apply tabFree_parts, Hall. }
  assert (Hsplit : forall cells,
            cells <> [] -> Forall (fun p => tabFree p = true) cells ->
            splitOn tab (join (str1 tab) cells) = cells).
  { intros cells Hcells0 Hall. apply splitOn_join; [exact Hcells0 |].
    apply Forall_forall. intros p Hp. rewrite Forall_forall in Hall.
    now apply tabFree_parts, Hall. }
  assert (Hnonempty : map name columns <> [])
    by (destruct columns; [contradiction | discriminate]).
  unfold parseTSV, tsvContent. cbv zeta.
  fold tab. rewrite splitOn_join.
  - cbn [map]. rewrite (Hsplit _ Hnonempty Hheader). f_equal.
    rewrite map_map. apply map_ext_in. intros row Hrow.
    rewrite Hsplit.
    + rewrite map_map. reflexivity.
    + destruct columns; [contradiction | discriminate].
    + now apply Hline.
  - discriminate.
  - constructor; [now apply Hjoin |].
    apply Forall_forall. intros line Hin. apply in_map_iff in Hin.
    destruct Hin as (row & <- & Hrow). now apply Hjoin, Hline.
Qed.

End TsvFacts.

(** The statement of X8 at the two company rows. *)
Lemma clipboard_text_reads_back_witness :
  TsvReader.parseTSV
    (ExportButton.tsvContent (host := TestHost.host) Sample.companyRows
       Sample.company)
  = [["company"; "revenue"]; [Sample.acme; "100"];
     [EmptyString; EmptyString]].
Proof.
  exact (clipboard_text_reads_back (host := TestHost.host) Sample.companyRows
           Sample.company eq_refl ltac:(discriminate)).
Defined.

(** ** QueryHistory: every history a user can reach *)

Section LedgerFacts.
Context {host : Host}.
Import QueryHistory.

Lemma NoDup_map_filter {A B : Type} (key : A -> B) (f : A -> bool)
    (l : list A) :
  NoDup (map key l) -> NoDup (map key (filter f l)).
Proof.
  induction l as [| x l IH]; [trivial |].
  cbn. intros Hnodup. inversion Hnodup as [| ? ? Hnotin Hrest]; subst.
  destruct (f x); [| now apply IH].
  cbn. constructor; [| now apply IH].
  intros Hin. apply Hnotin. apply in_map_iff in Hin.
  destruct Hin as (y & Hy & Hin). apply filter_In in Hin.
  apply in_map_iff. exists y. tauto.
Qed.

Lemma NoDup_map_firstn {A B : Type} (key : A -> B) (n : nat) (l : list A) :
  NoDup (map key l) -> NoDup (map key (firstn n l)).
Proof.
  revert n. induction l as [| x l IH]; intros n Hnodup.
  - now rewrite firstn_nil.
  - destruct n as [| n]; [constructor |].
    cbn. inversion Hnodup as [| ? ? Hnotin Hrest]; subst.
    constructor; [| now apply IH].
    intros Hin. apply Hnotin. apply in_map_iff in Hin.
    destruct Hin as (y & Hy & Hin). apply in_map_iff. exists y.
    split; [exact Hy |].
    rewrite <- (firstn_skipn n l). apply in_or_app. now left.
Qed.

Lemma add_keeps_questions_distinct (env : Env) (item : Input.t) (st : State) :
  NoDup (map questionKey (history st)) ->
  NoDup (map questionKey (history (addToHistory env item st))).
Proof.
  intros Hnodup. rewrite addToHistory_history. cbn [map]. constructor.
  - intros Hin. apply in_map_iff in Hin. destruct Hin as (h & Hkey & Hin).
    assert (Hh : In h (filter (differs (Input.question item)) (history st))).
    { rewrite <- (firstn_skipn 49 (filter _ (history st))).
      apply in_or_app. now left. }
    apply filter_In in Hh. destruct Hh as [_ Hdiffers].
    unfold differs in Hdiffers. unfold questionKey in Hkey. cbn in Hkey.
    rewrite Hkey, String.eqb_refl in Hdiffers. discriminate.
  - now apply NoDup_map_firstn, NoDup_map_filter.
Qed.

(** X9.  Whatever a user does from an empty history, adding, removing and
    clearing in any order, the history holds 50 entries at most, no two of
    them with questions equal up to case, and the stored item mirrors
    it. *)
Theorem reachable_history_invariants (actions : list HistoryAction) :
  List.length (history (runActions actions)) <= 50
  /\ NoDup (map (fun h => toLowerCase (question h))
                (history (runActions actions)))
  /\ inSync (runActions actions).
Proof.
  unfold runActions.
  induction actions as [| a actions IH] using rev_ind.
  - cbn. repeat split; [lia | constructor | now left].
  - rewrite fold_left_app. cbn [fold_left].
    set (st := fold_left applyAction actions (mkState [] None)) in *.
    destruct IH as (Hlen & Hnodup & Hsync).
    destruct a as [env item | i |]; cbn [applyAction].
    + split; [apply addToHistory_length |].
      split; [now apply add_keeps_questions_distinct | now right].
    + split.
      { cbn [removeFromHistory history].
        pose proof (filter_length_le
                      (fun h => negb (String.eqb (id h) i)) (history st)).
        lia. }
      split; [| now right].
      cbn [removeFromHistory history].
      exact (NoDup_map_filter questionKey _ (history st) Hnodup).
    + cbn. repeat split; [lia | constructor | now left].
Qed.

(** X10.  Removing by identifier keeps the entries with another identifier,
    in their order, and nothing else; an identifier that no entry carries
    leaves the history as it is, and removing a second time changes
    nothing. *)
Theorem remove_is_by_id_and_idempotent (i : string) (st : State) :
  (forall h, In h (history (removeFromHistory i st))
             <-> In h (history st) /\ id h <> i)
  /\ ((forall h, In h (history st) -> id h <> i) ->
      history (removeFromHistory i st) = history st)
  /\ history (removeFromHistory i (removeFromHistory i st))
     = history (removeFromHistory i st)
  /\ List.length (history (removeFromHistory i st))
     <= List.length (history st).
Proof.
  cbn [removeFromHistory history].
  split; [| split; [| split; [apply filter_twice | apply filter_length_le]]].
  - intros h. rewrite filter_In, negb_true_iff, String.eqb_neq. tauto.
  - intros Habsent. induction (history st) as [| h l IH]; [reflexivity |].
    cbn. destruct (String.eqb_spec (id h) i) as [Heq | _].
    + now destruct (Habsent h (or_introl eq_refl)).
    + cbn. f_equal. apply IH. intros h' Hh'. apply Habsent. now right.
Qed.

End LedgerFacts.

(** ** QueryHistory: order and replacement *)

Section OrderFacts.
Context {host : Host}.
Import QueryHistory.

Lemma StronglySorted_filter {A : Type} (R : A -> A -> Prop) (f : A -> bool)
    (l : list A) :
  StronglySorted R l -> StronglySorted R (filter f l).
Proof.
  induction 1 as [| x l Hsorted IH Hall]; [constructor |].
  cbn. destruct (f x); [| exact IH].
  constructor; [exact IH |].
  rewrite Forall_forall in *. intros y Hy. apply Hall.
  now apply filter_In in Hy.
Qed.

Lemma StronglySorted_firstn {A : Type} (R : A -> A -> Prop) (n : nat)
    (l : list A) :
  StronglySorted R l -> StronglySorted R (firstn n l).
Proof.
  intros Hsorted. revert n.
  induction Hsorted as [| x l Hsorted IH Hall]; intros n.
  - rewrite firstn_nil. constructor.
  - destruct n as [| n]; [constructor |].
    cbn. constructor; [apply IH |]. now apply Forall_firstn.
Qed.

(** X11.  With a clock that does not run backwards the history stays
    newest first: when the entries are in the order of their time stamps,
    newest first, and none is newer than the reading of the clock, they
    still are after [addToHistory]; removing an entry keeps the order
    too. *)
Theorem history_stays_newest_first (env : Env) (item : Input.t) (st : State) :
  StronglySorted newerOrSame (history st) ->
  Forall (fun h => PrimFloat.leb (timestamp h) (stampNow env) = true)
         (history st) ->
  StronglySorted newerOrSame (history (addToHistory env item st))
  /\ (forall i,
        StronglySorted newerOrSame (history (removeFromHistory i st))).
Proof.
  intros Hsorted Hclock. split.
  - rewrite addToHistory_history. constructor.
    + now apply StronglySorted_firstn, StronglySorted_filter.
    + apply Forall_firstn. apply Forall_forall. intros h Hh.
      apply filter_In in Hh. rewrite Forall_forall in Hclock.
      unfold newerOrSame. cbn. now apply Hclock.
  - intros i. cbn [removeFromHistory history].
    now apply StronglySorted_filter.
Qed.

(** X12.  Asking a question again replaces its entry: adding a question and
    then the same question up to case gives the history that the second
    call alone gives. *)
Theorem adding_again_replaces (env1 env2 : Env) (item1 item2 : Input.t)
    (st : State) :
  toLowerCase (Input.question item1) = toLowerCase (Input.question item2) ->
  history (addToHistory env2 item2 (addToHistory env1 item1 st))
  = history (addToHistory env2 item2 st).
Proof.
  intros Hsame. rewrite !addToHistory_history. f_equal.
  assert (Hdiffers : differs (Input.question item1)
                     = differs (Input.question item2)).
  { unfold differs. now rewrite Hsame. }
  rewrite Hdiffers. cbn [filter].
  assert (Hnew : differs (Input.question item2) (newItem env1 item1) = false).
  { unfold differs. cbn. now rewrite Hsame, String.eqb_refl. }
  rewrite Hnew.
  rewrite filter_differs_all
    by apply Forall_firstn, Forall_filter_differs.
  rewrite firstn_firstn. f_equal.
Qed.

End OrderFacts.

(** The statement of X11 at a history of three entries with three time
    stamps and a later call that asks the oldest question again: the new
    entry comes in front of the two that stay, whose time stamps are
    compared with it and with each other, and the history without its
    middle entry is in order too. *)
Lemma history_stays_newest_first_witness :
  map QueryHistory.timestamp
    (QueryHistory.history
       (QueryHistory.addToHistory (host := TestHost.host) Sample.secondCall
          Sample.showSalesAgain Sample2.threeEntries))
  = [1700000060001%float; 1700000050000%float; 1700000020000%float]
  /\ StronglySorted newerOrSame
       (QueryHistory.history
          (QueryHistory.addToHistory (host := TestHost.host)
             Sample.secondCall Sample.showSalesAgain Sample2.threeEntries))
  /\ StronglySorted newerOrSame
       (QueryHistory.history
          (QueryHistory.removeFromHistory (host := TestHost.host)
             "1700000020000-b7m1c9zretu" Sample2.threeEntries)).
Proof.
  split; [reflexivity |].
  pose proof (history_stays_newest_first (host := TestHost.host)
                Sample.secondCall Sample.showSalesAgain Sample2.threeEntries)
    as H.
  assert (Hsorted : StronglySorted newerOrSame
                      (QueryHistory.history Sample2.threeEntries))
    by (repeat constructor).
  assert (Hclock :
            Forall (fun h => PrimFloat.leb (QueryHistory.timestamp h)
                               (QueryHistory.stampNow Sample.secondCall)
                             = true)
                   (QueryHistory.history Sample2.threeEntries))
    by (repeat constructor).
  destruct (H Hsorted Hclock) as [Hadd Hremove].
  exact (conj Hadd (Hremove "1700000020000-b7m1c9zretu")).
Defined.

(** The statement of X12 at the two spellings of [Show sales]. *)
Lemma adding_again_replaces_witness :
  QueryHistory.history
    (QueryHistory.addToHistory (host := TestHost.host) Sample.secondCall
       Sample.showSalesAgain
       (QueryHistory.addToHistory (host := TestHost.host) Sample.firstCall
          Sample.showSales Sample2.oneEntry))
  = QueryHistory.history
      (QueryHistory.addToHistory (host := TestHost.host) Sample.secondCall
         Sample.showSalesAgain Sample2.oneEntry).
Proof.
  exact (adding_again_replaces (host := TestHost.host) Sample.firstCall
           Sample.secondCall Sample.showSales Sample.showSalesAgain
           Sample2.oneEntry eq_refl).
Defined.

(** ** QueryHistory: the panel *)

Section PanelFacts.
Context {host : Host}.
Import QueryHistory HistoryPanel.

(** X13.  The collapsed panel shows the first five entries; it shows the
    whole history exactly when the button that expands it is not offered,
    that is with five entries or fewer. *)
Theorem collapsed_panel_hides_only_behind_button
    (history : list QueryHistoryItem) :
  displayedHistory false history = firstn 5 history
  /\ (displayedHistory false history = history
      <-> offersShowAll history = false)
  /\ List.length (displayedHistory false history)
     = Nat.min 5 (List.length history)
  /\ displayedHistory true history = history.
Proof.
  assert (Hfirst : displayedHistory false history = firstn 5 history).
  { unfold displayedHistory. change 5%Z with (Z.of_nat 5).
    apply slice_prefix. }
  rewrite Hfirst. unfold offersShowAll.
  split; [reflexivity |]. split; [| split; [apply length_firstn | reflexivity]].
  rewrite Nat.ltb_ge. split.
  - intros Hall. rewrite <- Hall, length_firstn. lia.
  - apply firstn_all2.
Qed.

(** X14.  The age of an entry: under one minute, and for a time stamp ahead
    of the clock, [Just now]; from one minute on the whole minutes, 1 to
    59; from one hour on the whole hours, 1 to 23; from one day on the
    whole days. *)
Theorem age_buckets (now timestamp : Z) :
  let diff := (now - timestamp)%Z in
  ((diff < 60000)%Z -> formatTime now timestamp = "Just now")
  /\ ((60000 <= diff < 3600000)%Z ->
      (1 <= diff / 60000 <= 59)%Z
      /\ formatTime now timestamp
         = (numToString (numOfZ (diff / 60000)) ++ "m ago")%string)
  /\ ((3600000 <= diff < 86400000)%Z ->
      (1 <= diff / 3600000 <= 23)%Z
      /\ formatTime now timestamp
         = (numToString (numOfZ (diff / 3600000)) ++ "h ago")%string)
  /\ ((86400000 <= diff)%Z ->
      (1 <= diff / 86400000)%Z
      /\ formatTime now timestamp
         = (numToString (numOfZ (diff / 86400000)) ++ "d ago")%string).
Proof.
  intros diff. unfold formatTime. fold diff.
  pose proof (Z.div_mod diff 60000 ltac:(lia)) as Hm.
  pose proof (Z.mod_pos_bound diff 60000 ltac:(lia)) as Hm'.
  pose proof (Z.div_mod diff 3600000 ltac:(lia)) as Hh.
  pose proof (Z.mod_pos_bound diff 3600000 ltac:(lia)) as Hh'.
  pose proof (Z.div_mod diff 86400000 ltac:(lia)) as Hd.
  pose proof (Z.mod_pos_bound diff 86400000 ltac:(lia)) as Hd'.
  repeat split; try lia.
  - destruct (Z.ltb_spec (diff / 60000) 1); [reflexivity | lia].
  - destruct (Z.ltb_spec (diff / 60000) 1); [lia |].
    destruct (Z.ltb_spec (diff / 60000) 60); [reflexivity | lia].
  - destruct (Z.ltb_spec (diff / 60000) 1); [lia |].
    destruct (Z.ltb_spec (diff / 60000) 60); [lia |].
    destruct (Z.ltb_spec (diff / 3600000) 24); [reflexivity | lia].
  - destruct (Z.ltb_spec (diff / 60000) 1); [lia |].
    destruct (Z.ltb_spec (diff / 60000) 60); [lia |].
    destruct (Z.ltb_spec (diff / 3600000) 24); [lia | reflexivity].
Qed.

End PanelFacts.

(** ** QueryInterface: suggestions *)

Section SuggestionFacts.
Import QueryInterface.
Local Open Scope string_scope.

Lemma unique_spec (seen l : list string) (x : string) :
  In x (unique seen l) <-> In x l /\ ~ In x seen.
Proof.
  revert seen. induction l as [| y l IH]; intros seen; cbn; [tauto |].
  destruct (existsb (String.eqb y) seen) eqn:Hseen.
  - apply existsb_exists in Hseen. destruct Hseen as (z & Hz & Hyz).
    apply String.eqb_eq in Hyz. subst z.
    rewrite IH. split; [tauto |].
    intros [[-> | Hx] Hnot]; [contradiction | tauto].
  - assert (Hy : ~ In y seen).
    { intros Hin. apply Bool.not_true_iff_false in Hseen. apply Hseen.
      apply existsb_exists. exists y. split; [exact Hin |].
      apply String.eqb_refl. }
    cbn. rewrite IH. cbn. split.
    + intros [-> | [Hx Hnot]]; [tauto |]. split; [tauto |].
      intros Hin. apply Hnot. now right.
    + intros [[-> | Hx] Hnot]; [now left |].
      destruct (String.eqb_spec y x) as [-> | Hyx]; [now left |].
      right. split; [exact Hx |]. intros [Heq | Hin]; [congruence | tauto].
Qed.

Lemma unique_NoDup (seen l : list string) : NoDup (unique seen l).
Proof.
  revert seen. induction l as [| y l IH]; intros seen; cbn; [constructor |].
  destruct (existsb (String.eqb y) seen); [apply IH |].
  constructor; [| apply IH].
  rewrite unique_spec. intros [_ Hnot]. apply Hnot. now left.
Qed.

(** After [a] the strings met are those of [a] and those met before. *)
Lemma unique_app (seen a b : list string) :
  exists seen',
    unique seen (a ++ b)%list = (unique seen a ++ unique seen' b)%list
    /\ forall x, In x seen' <-> In x a \/ In x seen.
Proof.
  revert seen. induction a as [| y a IH]; intros seen; cbn.
  - exists seen. split; [reflexivity | tauto].
  - destruct (existsb (String.eqb y) seen) eqn:Hseen.
    + destruct (IH seen) as (seen' & Heq & Hmem). exists seen'.
      split; [exact Heq |]. intros x. rewrite Hmem.
      apply existsb_exists in Hseen. destruct Hseen as (z & Hz & Hyz).
      apply String.eqb_eq in Hyz. subst z.
      split; [tauto |]. intros [[-> | Hx] | Hx]; tauto.
    + destruct (IH (y :: seen)) as (seen' & Heq & Hmem). exists seen'.
      split; [cbn; now rewrite Heq |].
      intros x. rewrite Hmem. cbn. tauto.
Qed.

Lemma NoDup_firstn {A : Type} (n : nat) (l : list A) :
  NoDup l -> NoDup (firstn n l).
Proof.
  intros Hnodup. rewrite <- (map_id l) in Hnodup.
  rewrite <- (map_id (firstn n l)). now apply NoDup_map_firstn.
Qed.

Ltac distinct_strings :=
  repeat (constructor; [cbn; intuition discriminate |]); constructor.

Lemma smart_lists_small :
  Forall (fun rule : string * list string =>
            List.length (snd rule) <= 5 /\ NoDup (snd rule)
            /\ ~ In EmptyString (snd rule))
         SMART_SUGGESTIONS.
Proof.
  repeat constructor; cbn; try lia; try distinct_strings;
    intuition discriminate.
Qed.

Lemma firstMatch_In (rules : list (string * list string))
    (question : string) (sugg : list string) :
  firstMatch rules question = Some sugg ->
  exists keyword, In (keyword, sugg) rules /\ test keyword question = true.
Proof.
  induction rules as [| [keyword s] rules IH]; cbn; [discriminate |].
  destruct (test keyword question) eqn:Htest.
  - intros [= ->]. exists keyword. split; [now left | exact Htest].
  - intros Hrest. destruct (IH Hrest) as (k & Hk & Hkt).
    exists k. split; [now right | exact Hkt].
Qed.

Lemma suggestions_plain (question : string) (recentQueries : list string) :
  allWhiteSpace question = false ->
  firstMatch SMART_SUGGESTIONS question = None ->
  suggestions question recentQueries
  = firstn 5 (filter (candidate (toLowerCase question))
                     (unique [] (recentQueries ++ EXAMPLE_QUERIES)%list)).
Proof.
  intros Hblank Hnone. unfold suggestions.
  rewrite trim_empty, Hblank, Hnone. cbv zeta.
  change 5%Z with (Z.of_nat 5). apply slice_prefix.
Qed.

(** X15.  There are five suggestions at most and no suggestion comes
    twice; a blank input has none. *)
Theorem suggestions_are_few_and_distinct (question : string)
    (recentQueries : list string) :
  List.length (suggestions question recentQueries) <= 5
  /\ NoDup (suggestions question recentQueries)
  /\ (allWhiteSpace question = true ->
      suggestions question recentQueries = []).
Proof.
  destruct (allWhiteSpace question) eqn:Hblank.
  - assert (Hnone : suggestions question recentQueries = []).
    { unfold suggestions. now rewrite trim_empty, Hblank. }
    rewrite Hnone. cbn. repeat split; [lia | constructor].
  - destruct (firstMatch SMART_SUGGESTIONS question) as [sugg |] eqn:Hmatch.
    + assert (Hsugg : suggestions question recentQueries = sugg).
      { unfold suggestions. now rewrite trim_empty, Hblank, Hmatch. }
      rewrite Hsugg. destruct (firstMatch_In _ _ _ Hmatch) as (k & Hk & _).
      pose proof smart_lists_small as Hsmall.
      rewrite Forall_forall in Hsmall. specialize (Hsmall _ Hk).
      cbn in Hsmall. repeat split; try tauto. discriminate.
    + rewrite (suggestions_plain _ _ Hblank Hmatch).
      split; [apply firstn_le_length |]. split; [| discriminate].
      apply NoDup_firstn, NoDup_filter, unique_NoDup.
Qed.

End SuggestionFacts.

Section PlainSuggestionFacts.
Import QueryInterface.
Local Open Scope string_scope.

(** X16.  When no keyword pattern matches an input that is not blank, every
    suggestion is a recent query or an example that includes the input and
    is not the input, both taken in lower case; and the suggestions that
    are recent queries come before the others, which are examples that are
    no recent queries. *)
Theorem plain_suggestions_match_input (question : string)
    (recentQueries : list string) :
  allWhiteSpace question = false ->
  firstMatch SMART_SUGGESTIONS question = None ->
  (forall s,
      In s (suggestions question recentQueries) ->
      (In s recentQueries \/ In s EXAMPLE_QUERIES)
      /\ includes (toLowerCase s) (toLowerCase question) = true
      /\ toLowerCase s <> toLowerCase question)
  /\ (exists fromRecent fromExamples,
        suggestions question recentQueries
        = (fromRecent ++ fromExamples)%list
        /\ (forall s, In s fromRecent -> In s recentQueries)
        /\ (forall s, In s fromExamples ->
                      In s EXAMPLE_QUERIES /\ ~ In s recentQueries)).
Proof.
  intros Hblank Hnone. rewrite (suggestions_plain _ _ Hblank Hnone).
  set (q := toLowerCase question).
  assert (Hfirst : forall n (l : list string) s, In s (firstn n l) -> In s l).
  { intros n l s Hs. rewrite <- (firstn_skipn n l). apply in_or_app.
    now left. }
  split.
  - intros s Hs. apply Hfirst, filter_In in Hs. destruct Hs as [Hs Hcand].
    apply unique_spec in Hs. destruct Hs as [Hs _].
    apply in_app_or in Hs. split; [exact Hs |].
    unfold candidate in Hcand. apply andb_true_iff in Hcand.
    destruct Hcand as [Hinc Hne]. split; [exact Hinc |].
    now apply negb_true_iff, String.eqb_neq in Hne.
  - destruct (unique_app [] recentQueries EXAMPLE_QUERIES)
      as (seen & Heq & Hseen).
    rewrite Heq, filter_app, firstn_app.
    eexists. eexists. split; [reflexivity |]. split.
    + intros s Hs. apply Hfirst, filter_In in Hs.
      destruct Hs as [Hs _]. now apply unique_spec in Hs.
    + intros s Hs. apply Hfirst, filter_In in Hs.
      destruct Hs as [Hs _]. apply unique_spec in Hs.
      destruct Hs as [Hs Hnot]. split; [exact Hs |].
      intros Hrecent. apply Hnot, Hseen. now left.
Qed.

Lemma isWhiteSpace_lowerChar (c : ascii) :
  isWhiteSpace (lowerChar c) = isWhiteSpace c.
Proof. destruct c as [[] [] [] [] [] [] [] []]; reflexivity. Qed.

Lemma allWhiteSpace_toLowerCase (s : string) :
  allWhiteSpace (toLowerCase s) = allWhiteSpace s.
Proof.
  induction s as [| c s IH]; [reflexivity |].
  cbn [toLowerCase allWhiteSpace]. now rewrite isWhiteSpace_lowerChar, IH.
Qed.

Lemma allWhiteSpace_app (a b : string) :
  allWhiteSpace (a ++ b) = allWhiteSpace a && allWhiteSpace b.
Proof.
  induction a as [| c a IH]; [reflexivity |].
  cbn [append allWhiteSpace]. now rewrite IH, andb_assoc.
Qed.

Lemma toLowerCase_app (a b : string) :
  toLowerCase (a ++ b) = toLowerCase a ++ toLowerCase b.
Proof.
  induction a as [| c a IH]; [reflexivity |]. cbn. now rewrite IH.
Qed.

Lemma toLowerCase_length (s : string) :
  String.length (toLowerCase s) = String.length s.
Proof. induction s as [| c s IH]; [reflexivity |]. cbn. now rewrite IH. Qed.

Lemma sliceFrom_app (a b : string) :
  sliceFrom (String.length a) (a ++ b) = b.
Proof. induction a as [| c a IH]; [now destruct b | exact IH]. Qed.

(** X17.  A keyword alone, in any case and with any white space after it,
    gives the fixed list of that keyword, whatever the recent queries are;
    white space in front of the input keeps every keyword pattern from
    matching. *)
Theorem keyword_gives_its_fixed_list (keyword typed spaces : string)
    (sugg recentQueries : list string) :
  In (keyword, sugg) SMART_SUGGESTIONS ->
  toLowerCase typed = keyword ->
  allWhiteSpace spaces = true ->
  suggestions (typed ++ spaces) recentQueries = sugg
  /\ (forall c rest,
        isWhiteSpace c = true ->
        firstMatch SMART_SUGGESTIONS (String c rest) = None).
Proof.
  intros Hrule Htyped Hspaces. split.
  - assert (Hlow : toLowerCase (typed ++ spaces)
                   = keyword ++ toLowerCase spaces)
      by now rewrite toLowerCase_app, Htyped.
    assert (Hrest : sliceFrom (String.length keyword) (typed ++ spaces)
                    = spaces)
      by (rewrite <- Htyped, toLowerCase_length; apply sliceFrom_app).
    assert (Hblank : allWhiteSpace (typed ++ spaces) = allWhiteSpace keyword)
      by now rewrite allWhiteSpace_app, Hspaces, andb_true_r,
           <- allWhiteSpace_toLowerCase, Htyped.
    assert (Hhit : test keyword (typed ++ spaces) = true).
    { unfold test. now rewrite Hlow, startsWith_self, Hrest, Hspaces. }
    assert (Hmiss : forall other,
               (forall tail, startsWith (keyword ++ tail) other = false) ->
               test other (typed ++ spaces) = false).
    { intros other Hother. unfold test. now rewrite Hlow, Hother. }
    unfold suggestions. rewrite trim_empty, Hblank.
    unfold SMART_SUGGESTIONS in *. cbn [In] in Hrule. cbn [firstMatch].
    destruct Hrule as [H | [H | [H | [H | [H | []]]]]];
      injection H as Hk Hs; subst keyword sugg;
      rewrite ?Hmiss by (intros tail; reflexivity);
      now rewrite Hhit.
  - intros c rest Hc. cbn. unfold test. cbn [toLowerCase startsWith].
    assert (Hkey : forall k : ascii,
               isWhiteSpace k = false -> Ascii.eqb (lowerChar c) k = false).
    { intros k Hk. apply Ascii.eqb_neq. intros Heq.
      rewrite <- Heq, isWhiteSpace_lowerChar, Hc in Hk. discriminate. }
    now rewrite !Hkey by reflexivity.
Qed.

End PlainSuggestionFacts.

(** The statement of X16 at the input [sales] with one recent query. *)
Lemma plain_suggestions_match_input_witness :
  QueryInterface.suggestions "sales" ["Show sales"]
  = ["Show sales"; "Show total sales by category"]
  /\ (exists fromRecent fromExamples,
        QueryInterface.suggestions "sales" ["Show sales"]
        = fromRecent ++ fromExamples
        /\ (forall s, In s fromRecent -> In s ["Show sales"])
        /\ (forall s, In s fromExamples ->
                      In s QueryInterface.EXAMPLE_QUERIES
                      /\ ~ In s ["Show sales"])).
Proof.
  split; [vm_compute; reflexivity |].
  exact (proj2 (plain_suggestions_match_input "sales" ["Show sales"]
                  eq_refl eq_refl)).
Defined.

(** The statement of X17 at the input [SHOW] followed by two spaces. *)
Lemma keyword_gives_its_fixed_list_witness :
  QueryInterface.suggestions "SHOW  " ["Show sales"]
  = ["Show total"; "Show all"; "Show top 10"; "Show trend"]
  /\ QueryInterface.firstMatch QueryInterface.SMART_SUGGESTIONS " show" = None.
Proof.
  pose proof (keyword_gives_its_fixed_list "show" "SHOW" "  "
                ["Show total"; "Show all"; "Show top 10"; "Show trend"]
                ["Show sales"] ltac:(now left) eq_refl eq_refl) as H.
  exact (conj (proj1 H) (proj2 H " "%char "show" eq_refl)).
Defined.

(** ** QueryInterface: the keys *)

Section KeyFacts.
Import QueryInterface.
Local Open Scope string_scope.

Lemma includes_of_empty (t : string) :
  includes EmptyString t = true -> t = EmptyString.
Proof. destruct t; [reflexivity | discriminate]. Qed.

Lemma toLowerCase_empty (s : string) :
  toLowerCase s = EmptyString -> s = EmptyString.
Proof. destruct s; [reflexivity | discriminate]. Qed.

(** No suggestion is the empty string. *)
Lemma suggestions_not_empty (question : string) (recentQueries : list string) :
  ~ In EmptyString (suggestions question recentQueries).
Proof.
  destruct (allWhiteSpace question) eqn:Hblank.
  - unfold suggestions. rewrite trim_empty, Hblank. intros [].
  - destruct (firstMatch SMART_SUGGESTIONS question) as [sugg |] eqn:Hmatch.
    + assert (Hsugg : suggestions question recentQueries = sugg).
      { unfold suggestions. now rewrite trim_empty, Hblank, Hmatch. }
      rewrite Hsugg. destruct (firstMatch_In _ _ _ Hmatch) as (k & Hk & _).
      pose proof smart_lists_small as Hsmall.
      rewrite Forall_forall in Hsmall. specialize (Hsmall _ Hk). tauto.
    + rewrite (suggestions_plain _ _ Hblank Hmatch). intros Hin.
      assert (Hin' : In EmptyString
                        (filter (candidate (toLowerCase question))
                           (unique [] (recentQueries ++ EXAMPLE_QUERIES)%list))).
      { rewrite <- (firstn_skipn 5 (filter _ _)). apply in_or_app. now left. }
      apply filter_In in Hin'. destruct Hin' as [_ Hcand].
      unfold candidate in Hcand. apply andb_true_iff in Hcand.
      destruct Hcand as [Hinc _]. cbn [toLowerCase] in Hinc.
      apply includes_of_empty, toLowerCase_empty in Hinc.
      subst question. discriminate.
Qed.

(** X18.  With the selected index at a suggestion or at -1, every key
    leaves it so.  Enter on a selected suggestion puts that suggestion into
    the input and asks nothing; Enter without a selection asks the trimmed
    input, and only when it is not blank and no query is running; no other
    key asks anything. *)
Theorem keys_keep_selection_and_submit_trimmed (isLoading : bool)
    (recentQueries : list string) (st : State) (key : Key) :
  selectionOk recentQueries st ->
  selectionOk recentQueries
    (fst (handleKeyDown isLoading recentQueries st key))
  /\ ((0 <= selectedSuggestion st)%Z ->
      exists s,
        nth_error (suggestions (question st) recentQueries)
                  (Z.to_nat (selectedSuggestion st)) = Some s
        /\ handleKeyDown isLoading recentQueries st Enter
           = (mkState s false (-1), None))
  /\ (selectedSuggestion st = (-1)%Z ->
      snd (handleKeyDown isLoading recentQueries st Enter)
      = if negb (allWhiteSpace (question st)) && negb isLoading
        then Some (trim (question st)) else None)
  /\ (key <> Enter ->
      snd (handleKeyDown isLoading recentQueries st key) = None).
Proof.
  unfold selectionOk. intros Hok.
  set (sugg := suggestions (question st) recentQueries) in *.
  assert (Hpick : (0 <= selectedSuggestion st)%Z ->
            exists s,
              nth_error sugg (Z.to_nat (selectedSuggestion st)) = Some s
              /\ handleKeyDown isLoading recentQueries st Enter
                 = (mkState s false (-1), None)).
  { intros Hsel.
    destruct (nth_error sugg (Z.to_nat (selectedSuggestion st)))
      as [s |] eqn:Hnth.
    - exists s. split; [reflexivity |].
      assert (Hs : String.eqb s EmptyString = false).
      { apply String.eqb_neq. intros ->.
        apply (suggestions_not_empty (question st) recentQueries).
        exact (nth_error_In _ _ Hnth). }
      unfold handleKeyDown. fold sugg.
      destruct (Z.leb_spec 0 (selectedSuggestion st)) as [_ | ?]; [| lia].
      unfold truthyAt. now rewrite Hnth, Hs.
    - apply nth_error_None in Hnth. lia. }
  assert (Hlen : forall s, (-1 < Z.of_nat (List.length
                                   (suggestions s recentQueries)))%Z)
    by (intros s; lia).
  split; [| split; [exact Hpick | split]].
  - destruct key.
    + destruct (Z.leb_spec 0 (selectedSuggestion st)) as [Hsel | Hsel].
      * destruct (Hpick Hsel) as (s & _ & ->). cbn.
        specialize (Hlen s). lia.
      * unfold handleKeyDown.
        destruct (Z.leb_spec 0 (selectedSuggestion st)) as [? | _]; [lia |].
        unfold handleSubmit.
        destruct (negb (String.eqb (trim (question st)) EmptyString)
                  && negb isLoading); cbn; fold sugg; lia.
    + cbn. fold sugg. lia.
    + cbn. fold sugg. lia.
    + cbn. specialize (Hlen (question st)). fold sugg in Hlen. lia.
    + cbn. fold sugg. lia.
  - intros Hsel. cbn [handleKeyDown]. rewrite Hsel. cbn.
    unfold handleSubmit. rewrite trim_empty.
    now destruct (negb (allWhiteSpace (question st)) && negb isLoading).
  - intros Hkey. destruct key; try reflexivity. now destruct Hkey.
Qed.

End KeyFacts.

(** The statement of X18 at the input [sales] with the first suggestion
    selected and the key Enter. *)
Lemma keys_keep_selection_and_submit_trimmed_witness :
  QueryInterface.handleKeyDown false ["Show sales"]
    (QueryInterface.mkState "sales" true 0) QueryInterface.Enter
  = (QueryInterface.mkState "Show sales" false (-1), None)
  /\ selectionOk ["Show sales"]
       (fst (QueryInterface.handleKeyDown false ["Show sales"]
               (QueryInterface.mkState "sales" true 0)
               QueryInterface.Enter)).
Proof.
  pose proof (keys_keep_selection_and_submit_trimmed false ["Show sales"]
                (QueryInterface.mkState "sales" true 0) QueryInterface.Enter
                ltac:(vm_compute; split; [discriminate | reflexivity])) as H.
  exact (conj eq_refl (proj1 H)).
Defined.

(** ** The toast provider *)

Section ToastFacts.
Import Toasts.

(** X19.  A new toast goes to the end of the list under the identifier cut
    from the random string, and the toasts already shown stay as they are.
    When that identifier is not in use, removing it - by the timer or by
    hand - gives back the list from before; a removal takes every toast of
    that identifier and no other, so a second removal changes nothing.  The
    timer is set only for a delay above zero: 5000 when the toast names
    none, which is 8000 for an error notice and 5000 for the other three. *)
Theorem toast_comes_and_goes (random36 : string) (toast : Input.t)
    (toasts : list Toast) :
  let i := sliceFrom 2 random36 in
  let after := fst (addToast random36 toast toasts) in
  let timer := snd (addToast random36 toast toasts) in
  (exists t, after = toasts ++ [t] /\ id t = i /\ type t = Input.type toast
             /\ title t = Input.title toast) /\
  ((forall t, In t toasts -> id t <> i) -> removeToast i after = toasts) /\
  (forall j t, In t (removeToast j after) <-> In t after /\ id t <> j) /\
  (forall j, removeToast j (removeToast j after) = removeToast j after) /\
  (forall d, Input.duration toast = Some d ->
     timer = if PrimFloat.ltb 0 d then Some (i, d) else None) /\
  (Input.duration toast = None -> timer = Some (i, 5000%float)) /\
  (forall kind title message,
     snd (notify kind random36 title message toasts)
     = Some (i, match kind with
                | error => 8000%float
                | _ => 5000%float
                end)).
Proof.
  intros i after timer. subst after timer. cbn [addToast fst snd]. fold i.
  split; [| split; [| split; [| split; [| split; [| split]]]]].
  - eexists. split; [reflexivity |]. cbn. auto.
  - intros Hfresh. unfold removeToast. rewrite filter_app. cbn.
    rewrite String.eqb_refl. cbn. rewrite app_nil_r.
    apply forallb_filter_id. apply forallb_forall. intros t Ht.
    apply negb_true_iff, String.eqb_neq. now apply Hfresh.
  - intros j t. unfold removeToast.
    rewrite filter_In, negb_true_iff, String.eqb_neq. tauto.
  - intros j. apply filter_twice.
  - intros d ->. reflexivity.
  - intros ->. reflexivity.
  - intros kind title message. destruct kind; reflexivity.
Qed.

End ToastFacts.

(** ** Keyboard shortcuts *)

Section ShortcutFacts.
Import Shortcuts.

Context {A : Type}.

Lemma matches_true (event : KeyEvent) (s : KeyboardShortcut A) :
  matches event s = true ->
  toLowerCase (eventKey event) = toLowerCase (key s)
  /\ shiftKey event = shift s
  /\ altKey event = alt s
  /\ (ctrl s = true -> ctrlKey event || metaKey event = true).
Proof.
  unfold matches. rewrite !andb_true_iff. intros [[[Hk Hc] Hs] Ha].
  apply String.eqb_eq in Hk.
  repeat split; try assumption.
  - destruct (shift s), (shiftKey event); try reflexivity; discriminate.
  - destruct (alt s), (altKey event); try reflexivity; discriminate.
  - intros Hctrl. now rewrite Hctrl in Hc.
Qed.

Lemma firstFiring_spec (event : KeyEvent)
    (shortcuts : list (KeyboardShortcut A)) :
  match firstFiring event shortcuts with
  | Some a =>
      exists before s after,
        shortcuts = before ++ s :: after /\ a = action s
        /\ Forall (passedOver event) before
        /\ matches event s = true
        /\ (isTyping event = true -> ctrl s || meta s = true)
  | None => Forall (passedOver event) shortcuts
  end.
Proof.
  induction shortcuts as [| s rest IH]; [constructor |].
  cbn [firstFiring].
  destruct (matches event s) eqn:Hm.
  - destruct (isTyping event && negb (ctrl s) && negb (meta s)) eqn:Hskip.
    + apply andb_true_iff in Hskip as [Hskip Hmeta].
      apply andb_true_iff in Hskip as [Htyping Hctrl].
      apply negb_true_iff in Hmeta, Hctrl.
      assert (Hs : passedOver event s) by (right; auto).
      destruct (firstFiring event rest) as [a |].
      * destruct IH as (before & s' & after & -> & -> & Hb & Hm' & Ht).
        exists (s :: before), s', after. repeat split; auto.
      * now constructor.
    + exists [], s, rest. repeat split; auto.
      intros Htyping. rewrite Htyping in Hskip. cbn in Hskip.
      destruct (ctrl s), (meta s); try reflexivity; discriminate.
  - assert (Hs : passedOver event s) by (left; exact Hm).
    destruct (firstFiring event rest) as [a |].
    + destruct IH as (before & s' & after & -> & -> & Hb & Hm' & Ht).
      exists (s :: before), s', after. repeat split; auto.
    + now constructor.
Qed.

(** X20.  A key press runs at most one action: that of the first shortcut
    of the list that matches and is not held back by typing.  The shortcut
    that fires has the pressed key up to letter case and exactly the Shift
    and Alt state of the event; one that asks for Ctrl needs Ctrl or Meta
    held; while the focus is in an input, a text area, a select or editable
    content it is one flagged ctrl or meta.  Nothing fires when the hook is
    disabled or every shortcut is passed over. *)
Theorem first_matching_shortcut_fires (enabled : bool) (event : KeyEvent)
    (shortcuts : list (KeyboardShortcut A)) :
  let skipped s :=
    matches event s = false
    \/ (isTyping event = true /\ ctrl s = false /\ meta s = false) in
  match handleKeyDown enabled event shortcuts with
  | Some a =>
      enabled = true
      /\ exists before s after,
           shortcuts = before ++ s :: after /\ a = action s
           /\ Forall skipped before
           /\ toLowerCase (eventKey event) = toLowerCase (key s)
           /\ shiftKey event = shift s
           /\ altKey event = alt s
           /\ (ctrl s = true -> ctrlKey event || metaKey event = true)
           /\ (isTyping event = true -> ctrl s || meta s = true)
  | None => enabled = false \/ Forall skipped shortcuts
  end.
Proof.
  intros skipped. unfold handleKeyDown.
  destruct enabled; [| now left].
  pose proof (firstFiring_spec event shortcuts) as H.
  destruct (firstFiring event shortcuts) as [a |].
  - destruct H as (before & s & after & -> & -> & Hb & Hm & Ht).
    destruct (matches_true event s Hm) as (Hk & Hs & Ha & Hc).
    split; [reflexivity |].
    exists before, s, after. repeat split; auto.
  - right. exact H.
Qed.

(** X21.  With the shortcuts of the application, a key pressed while the
    focus is in an input, a text area, a select or editable content runs
    nothing unless Ctrl or Meta is held, whichever callbacks are given: the
    slash and Escape shortcuts are then silent.  Outside such an element a
    plain slash runs the search callback. *)
Theorem typing_silences_plain_shortcuts
    (onSearch onEscape onToggleTheme onToggleHistory : option A)
    (event : KeyEvent)
    (Hkeys : ctrlKey event || metaKey event = false) :
  (isTyping event = true ->
   handleKeyDown true event
     (useAppShortcuts onSearch onEscape onToggleTheme onToggleHistory)
   = None)
  /\ (isTyping event = false -> eventKey event = "/" ->
      shiftKey event = false -> altKey event = false ->
      handleKeyDown true event
        (useAppShortcuts onSearch onEscape onToggleTheme onToggleHistory)
      = onSearch).
Proof.
  split.
  - intros Htyping.
    pose proof (firstFiring_spec event
                  (useAppShortcuts onSearch onEscape onToggleTheme
                     onToggleHistory)) as H.
    unfold handleKeyDown.
    destruct (firstFiring event _) as [a |]; [| reflexivity].
    destruct H as (before & s & after & Heq & _ & _ & Hm & Ht).
    specialize (Ht Htyping).
    destruct (matches_true event s Hm) as (_ & _ & _ & Hc).
    assert (Hin : In s (useAppShortcuts onSearch onEscape onToggleTheme
                          onToggleHistory))
      by (rewrite Heq; apply in_elt).
    assert (Hflag : ctrl s = true).
    { unfold useAppShortcuts in Hin.
      rewrite !in_app_iff in Hin.
      destruct onSearch, onEscape, onToggleTheme, onToggleHistory;
        cbn in Hin; intuition (subst; cbn in *; congruence). }
    rewrite (Hc Hflag) in Hkeys. discriminate.
  - intros Htyping Hkey Hshift Halt.
    unfold handleKeyDown, useAppShortcuts.
    destruct onSearch as [f |].
    + cbn [app firstFiring]. unfold matches at 1. cbn [ctrl key shift alt].
      rewrite Hkey, Hkeys. cbn.
      unfold matches. cbn [ctrl key shift alt meta action].
      rewrite Hkey, Hshift, Halt, Htyping. reflexivity.
    + cbn [app].
      destruct onEscape, onToggleTheme, onToggleHistory;
        cbn [app firstFiring]; unfold matches;
        cbn [ctrl key shift alt meta action];
        rewrite ?Hkey, ?Hkeys, ?Hshift, ?Halt, ?Htyping; reflexivity.
Qed.

End ShortcutFacts.

Lemma typing_silences_plain_shortcuts_witness :
  Shortcuts.handleKeyDown true
    (Shortcuts.mkEvent "Escape" false false false false "INPUT" false)
    (Shortcuts.useAppShortcuts (Some 1) (Some 2) (Some 3) (Some 4))
  = None.
Proof.
  exact (proj1 (typing_silences_plain_shortcuts (Some 1) (Some 2) (Some 3)
                  (Some 4)
                  (Shortcuts.mkEvent "Escape" false false false false "INPUT"
                     false)
                  eq_refl) eq_refl).
Defined.
